(** * groupby: calendar and contact-export summaries

    A shallow embedding of [groupby/gcal.py] and [groupby/linkedin.py]
    together with the properties their specification states.

    Conventions of the embedding.
    - Python [str] is [string]; Python [int] is [Z].
    - In the tables of the pipeline a Python [float] holding a duration is
      a rational ([Q]): every duration comes from
      [timedelta.total_seconds()], a finite multiple of one microsecond, and
      what the pipeline decides with it, the comparisons of the hours with 0
      and 24, comes out the same on the doubles and on the rationals.  The
      rational [minutes], [hours] and column sums are the exact values; what
      the float divisions of the program really return, the quotient
      rounded to a double, is modelled apart, in [Float64], on IEEE-754
      binary64 numbers.  Nothing is stated about the rounding of sums.
    - A call that may raise is a value of [outcome]: [Return v] or
      [Raise e].  [try ... except] is a match on that value.
    - The libraries the program calls (re, arrow, matplotlib, the file
      reader) are not part of the repository.  [re] is given its documented
      semantics on regular expressions; the others are parameters. *)

From Stdlib Require Import List String Ascii Bool ZArith QArith Lia.
From Stdlib Require Import Permutation Sorted.
From Stdlib Require PrimFloat FloatOps SpecFloat FloatAxioms.
Import ListNotations.

Local Open Scope string_scope.
Local Open Scope Z_scope.

(** ** Exceptions *)

Inductive exn : Type :=
| TypeError (msg : string)
| ValueError (msg : string)
| KeyError (key : string)
| ParserError (msg : string)
| ArgumentTypeError (msg : string)
| IOError (msg : string).

Inductive outcome (A : Type) : Type :=
| Return (a : A)
| Raise (e : exn).

Arguments Return {A} a.
Arguments Raise {A} e.

Definition bind {A B : Type} (m : outcome A) (k : A -> outcome B) : outcome B :=
  match m with
  | Return a => k a
  | Raise e => Raise e
  end.

Notation "x <- m ;; k" := (bind m (fun x => k))
  (at level 61, m at next level, right associativity).

Definition raises {A : Type} (m : outcome A) : Prop :=
  exists e, m = Raise e.

Definition is_TypeError (e : exn) : bool :=
  match e with
  | TypeError _ => true
  | _ => false
  end.

(** ** Regular expressions: the part of [re] that [_group] uses *)

Module Re.

(** A compiled pattern of the regular fragment: literal characters, the
    dot (read as under [re.DOTALL], any character), concatenation,
    alternation and star.  Anchors, word boundaries, lookarounds and
    back-references are not part of it. *)
Inductive pattern : Type :=
| Never
| Empty
| Chr (c : ascii)
| Dot
| Cat (p q : pattern)
| Alt (p q : pattern)
| Star (p : pattern).

(** [lang p w]: the word [w] belongs to the language of [p]. *)
Inductive lang : pattern -> string -> Prop :=
| lang_Empty : lang Empty ""
| lang_Chr c : lang (Chr c) (String c "")
| lang_Dot c : lang Dot (String c "")
| lang_Cat p q u v : lang p u -> lang q v -> lang (Cat p q) (u ++ v)
| lang_AltL p q w : lang p w -> lang (Alt p q) w
| lang_AltR p q w : lang q w -> lang (Alt p q) w
| lang_Star0 p : lang (Star p) ""
| lang_StarS p u v : lang p u -> lang (Star p) v -> lang (Star p) (u ++ v).

Fixpoint nullable (p : pattern) : bool :=
  match p with
  | Never => false
  | Empty => true
  | Chr _ => false
  | Dot => false
  | Cat p q => nullable p && nullable q
  | Alt p q => nullable p || nullable q
  | Star _ => true
  end.

Fixpoint deriv (a : ascii) (p : pattern) : pattern :=
  match p with
  | Never => Never
  | Empty => Never
  | Chr c => if Ascii.eqb a c then Empty else Never
  | Dot => Empty
  | Cat p q =>
      if nullable p then Alt (Cat (deriv a p) q) (deriv a q)
      else Cat (deriv a p) q
  | Alt p q => Alt (deriv a p) (deriv a q)
  | Star p => Cat (deriv a p) (Star p)
  end.

(** [pattern.fullmatch(s)]: the whole of [s] is in the language. *)
Fixpoint fullmatch (p : pattern) (s : string) : bool :=
  match s with
  | "" => nullable p
  | String a s' => fullmatch (deriv a p) s'
  end.

(** [pattern.match(s)]: "zero or more characters at the beginning of the
    string match"; the result is a match object (truthy) or [None]. *)
Fixpoint match_ (p : pattern) (s : string) : bool :=
  nullable p ||
  match s with
  | "" => false
  | String a s' => match_ (deriv a p) s'
  end.

(** [pattern.search(s)]: a match starting at any position. *)
Fixpoint search (p : pattern) (s : string) : bool :=
  match_ p s ||
  match s with
  | "" => false
  | String _ s' => search p s'
  end.

(** The pattern a string without special characters compiles to. *)
Fixpoint literal (s : string) : pattern :=
  match s with
  | "" => Empty
  | String c s' => Cat (Chr c) (literal s')
  end.

Definition matches_prefix (p : pattern) (s : string) : Prop :=
  exists u v, s = u ++ v /\ lang p u.

Definition matches_somewhere (p : pattern) (s : string) : Prop :=
  exists t u v, s = t ++ u ++ v /\ lang p u.

End Re.

(** ** gcal.py *)

(** [_group(s, groups)] *)
Fixpoint _group (s : string) (groups : list (Re.pattern * string)) : string :=
  match groups with
  | [] => s
  | (pattern, replacement) :: rest =>
      if Re.match_ pattern s then replacement else _group s rest
  end.

(** *** Events as the calendar library hands them over *)

Module Dt.

(** The fields of a [datetime] that the program reads. *)
Record datetime : Type := {
  year : Z;
  month : Z;
  day : Z;
  hour : Z
}.

End Dt.

(** An [Arrow] wraps a zone-aware datetime: its calendar fields as shown in
    its own zone, and the instant it denotes, in microseconds since the
    epoch.  Subtracting two of them compares the instants. *)
Record Arrow : Type := {
  datetime : Dt.datetime;
  timestamp_us : Z
}.

(** A [timedelta], in microseconds. *)
Definition timedelta : Type := Z.

Definition total_seconds (td : timedelta) : Q := Qmake td 1000000.

Definition arrow_sub (a b : Arrow) : timedelta :=
  timestamp_us a - timestamp_us b.

Record Event : Type := {
  begin : Arrow;
  end_ : Arrow;
  name : string
}.

(** [event.duration] of an event given by its two ends. *)
Definition Event_duration (event : Event) : timedelta :=
  arrow_sub (end_ event) (begin event).

(** [event.end] precedes [event.begin]. *)
Definition ends_before_start (event : Event) : Prop :=
  timestamp_us (end_ event) < timestamp_us (begin event).

(** [arrow.get(a)] on an [Arrow] gives that same moment back. *)
Definition arrow_get_arrow (a : Arrow) : Arrow := a.

(** *** Tables with fixed columns

    A table is a list of rows, each under its index label. *)
Definition table (R : Type) : Type := list (Z * R).

Definition values {R : Type} (t : table R) : list R := map snd t.

(** [t.loc[i] = r]: replaces the row labelled [i], or appends it under
    that label when there is none. *)
Definition loc_set {R : Type} (i : Z) (r : R) (t : table R) : table R :=
  if existsb (fun ir => Z.eqb (fst ir) i) t
  then map (fun ir => if Z.eqb (fst ir) i then (i, r) else ir) t
  else (t ++ [(i, r)])%list.

(** The columns [_process_calendar] fills. *)
Record CalRow : Type := {
  day : Z;
  month : Z;
  year : Z;
  hour : Z;
  event_name : string;
  duration : Q
}.

(** The list assigned to [cal_df.loc[i]] for one event. *)
Definition event_record (event : Event) : CalRow :=
  let start_date := arrow_get_arrow (begin event) in
  let end_date := arrow_get_arrow (end_ event) in
  {| day := Dt.day (datetime start_date);
     month := Dt.month (datetime start_date);
     year := Dt.year (datetime start_date);
     hour := Dt.hour (datetime start_date);
     event_name := name event;
     duration := total_seconds (Event_duration event) |}.

(** One turn of the loop over [calendar.events]: the state is the table
    and the counter [i]. *)
Definition process_event (st : table CalRow * Z) (event : Event)
  : table CalRow * Z :=
  let (cal_df, i) := st in
  (loc_set i (event_record event) cal_df, i + 1).

Definition process_events (events : list Event) : table CalRow :=
  fst (fold_left process_event events ([], 0)).

(** [_process_calendar(calendar_file)]; reading the file and parsing it
    belong to the environment and to the ics library. *)
Definition _process_calendar
    (open_read : string -> outcome string)
    (ics_Calendar : string -> outcome (list Event))
    (calendar_file : string) : outcome (table CalRow) :=
  text <- open_read calendar_file ;;
  events <- ics_Calendar text ;;
  Return (process_events events).

(** [_valid_date(s)]; [arrow_get] is [arrow.get] on strings. *)
Definition _valid_date (arrow_get : string -> outcome Arrow) (s : string)
  : outcome Arrow :=
  match arrow_get s with
  | Return d => Return d
  | Raise (TypeError _) =>
      let msg := "Not a valid date: '" ++ s ++ "'." in
      Raise (ArgumentTypeError msg)
  | Raise e => Raise e
  end.

(** A stand-in for [arrow.get] on strings, used to run [_valid_date]:
    it knows one date and answers every other string the way arrow's
    parser does, with a [ParserError]. *)
Definition arrow_get_sample (s : string) : outcome Arrow :=
  if String.eqb s "2017-11-03"
  then Return {| datetime := {| Dt.year := 2017; Dt.month := 11;
                                Dt.day := 3; Dt.hour := 0 |};
                 timestamp_us := 1509667200000000 |}
  else Raise (ParserError ("Could not match input to any of the formats on '"
                           ++ s ++ "'")).

(** *** Tables with named columns, as the plotting code reads them *)

Inductive value : Type :=
| VInt (z : Z)
| VFloat (q : Q)
| VStr (s : string)
| VNaN.

Definition row : Type := list (string * value).

Fixpoint cell (c : string) (r : row) : value :=
  match r with
  | [] => VNaN
  | (c', v) :: r' => if String.eqb c c' then v else cell c r'
  end.

Record DataFrame : Type := {
  columns : list string;
  rows : table row
}.

Definition Series : Type := table value.

Definition has_column (df : DataFrame) (c : string) : bool :=
  existsb (String.eqb c) (columns df).

(** [df[c]]: a [KeyError] when there is no such column. *)
Definition getitem (df : DataFrame) (c : string) : outcome Series :=
  if has_column df c
  then Return (map (fun ir => (fst ir, cell c (snd ir))) (rows df))
  else Raise (KeyError c).

(** *** Charts *)

(** The calls into matplotlib, each acting on the figure under
    construction; any of them may raise. *)
Record Pyplot (Fig : Type) : Type := {
  subplots : outcome Fig;
  ax_bar : list value -> list value -> string -> Fig -> outcome Fig;
  ax_set_title : string -> Fig -> outcome Fig;
  ax_set_xlabel : string -> Fig -> outcome Fig;
  ax_set_ylabel : string -> Fig -> outcome Fig;
  xticks : list value -> list value -> Fig -> outcome Fig;
  set_size_inches : Z * Z -> Fig -> outcome Fig
}.

Arguments subplots {Fig} _.
Arguments ax_bar {Fig} _ _ _ _ _.
Arguments ax_set_title {Fig} _ _ _.
Arguments ax_set_xlabel {Fig} _ _ _.
Arguments ax_set_ylabel {Fig} _ _ _.
Arguments xticks {Fig} _ _ _ _.
Arguments set_size_inches {Fig} _ _ _.

(** What [plot] hands back: the figure, or a string. *)
Inductive plot_result (Fig : Type) : Type :=
| Chart (fig : Fig)
| Message (s : string).

Arguments Chart {Fig} fig.
Arguments Message {Fig} s.

Definition cant_generate_plot : string := "Can't generate plot".

Section Plotting.

Context {Fig : Type}.
Variable plt : Pyplot Fig.

(** The body of the [try] block of [plot]. *)
Definition plot_try (x y z : list value) (xlabel ylabel title : string)
    (fig_size : Z * Z) (fig_color flag : string) : outcome Fig :=
  fig <- subplots plt ;;
  fig <- ax_bar plt (firstn 5 z) (firstn 5 y) fig_color fig ;;
  fig <- ax_set_title plt title fig ;;
  fig <- ax_set_xlabel plt xlabel fig ;;
  fig <- ax_set_ylabel plt ylabel fig ;;
  fig <- (if String.eqb flag "-T" || String.eqb flag "-L"
          then xticks plt (firstn 5 z) (firstn 5 x) fig
          else Return fig) ;;
  fig <- set_size_inches plt fig_size fig ;;
  Return fig.

(** [plot(x, y, z, xlabel, ylabel, title, fig_size, fig_color, flag)] *)
Definition plot (x y z : list value) (xlabel ylabel title : string)
    (fig_size : Z * Z) (fig_color flag : string)
  : outcome (plot_result Fig) :=
  match plot_try x y z xlabel ylabel title fig_size fig_color flag with
  | Return fig => Return (Chart fig)
  | Raise _ => Return (Message cant_generate_plot)
  end.

(** [plot_data(x, y, x_column, y_column, xlabel, ylabel, title, fig_size,
    fig_color)] *)
Definition plot_data (x : DataFrame) (y : list value)
    (x_column y_column xlabel ylabel title : string)
    (fig_size : Z * Z) (fig_color : string) : outcome Fig :=
  fig <- subplots plt ;;
  xs <- getitem x x_column ;;
  ys <- getitem x y_column ;;
  fig <- ax_bar plt (values xs) (values ys) fig_color fig ;;
  fig <- ax_set_title plt title fig ;;
  fig <- ax_set_xlabel plt xlabel fig ;;
  fig <- ax_set_ylabel plt ylabel fig ;;
  ticks <- getitem x x_column ;;
  fig <- xticks plt (values ticks) y fig ;;
  fig <- set_size_inches plt fig_size fig ;;
  Return fig.

End Plotting.

(** *** The float conversions, on IEEE-754 doubles *)

Module Float64.

Import PrimFloat FloatOps SpecFloat.
Local Open Scope float_scope.

(** [_total_hours(seconds)] *)
Definition _total_hours (seconds : float) : float := seconds / 3600.

(** [s / k] on a column of floats: the division cell by cell, the labels
    kept. *)
Definition series_div (s : table float) (k : float) : table float :=
  map (fun ix => (fst ix, snd ix / k)) s.

(** [cal_df['minutes'] = cal_df['duration'] / 60] *)
Definition minutes_column (duration : table float) : table float :=
  series_div duration 60.

(** [cal_df['hours'] = cal_df['duration'] / 3600] *)
Definition hours_column (duration : table float) : table float :=
  series_div duration 3600.

(** The number a finite double stands for. *)
Definition exact_value (x : float) : option Q :=
  match Prim2SF x with
  | S754_zero _ => Some 0%Q
  | S754_finite s m e =>
      let n := if s then Z.neg m else Z.pos m in
      Some (if (0 <=? e)%Z then inject_Z (n * 2 ^ e)
            else Qmake n (2 ^ Z.to_pos (- e)))
  | _ => None
  end.

(** [y] is [x] divided by [k] with no rounding at all. *)
Definition exact_quotient (x : float) (k : Z) (y : float) : Prop :=
  exists qx qy,
    exact_value x = Some qx /\ exact_value y = Some qy /\
    (qy == qx / inject_Z k)%Q.

End Float64.

(** *** get_plots: derived columns, filters and aggregates *)

(** The table after [minutes] and [hours] have been added. *)
Record CalRowT : Type := {
  base : CalRow;
  minutes : Q;
  hours : Q
}.

(** The table after [count] has been added. *)
Record CalRowC : Type := {
  timed : CalRowT;
  count : Z
}.

Definition Qlt_bool (x y : Q) : bool := negb (Qle_bool y x).

Definition sum_Z (l : list Z) : Z := fold_right Z.add 0 l.

(** The sum of a column of the rational table, with no rounding. *)
Definition sum_Q (l : list Q) : Q := fold_right Qplus 0%Q l.

(** [cal_df['minutes'] = cal_df['duration'] / 60] and
    [cal_df['hours'] = cal_df['duration'] / 3600], in the rational table:
    the two new cells hold the exact quotients, which stand for the
    doubles of [Float64.minutes_column] and [Float64.hours_column] in the
    comparisons that follow. *)
Definition add_minutes_hours (cal_df : table CalRow) : table CalRowT :=
  map (fun ir => (fst ir, {| base := snd ir;
                             minutes := (duration (snd ir) / 60)%Q;
                             hours := (duration (snd ir) / 3600)%Q |}))
      cal_df.

(** [Series.str.contains(pat)] on one cell: a regular-expression search. *)
Definition str_contains (pat s : string) : bool :=
  Re.search (Re.literal pat) s.

(** [cal_df[~cal_df['event_name'].str.contains('birthday')]] *)
Definition drop_birthdays (cal_df : table CalRowT) : table CalRowT :=
  filter (fun ir => negb (str_contains "birthday" (event_name (base (snd ir)))))
         cal_df.

(** [cal_df[(cal_df['hours'] < 24) & (cal_df['hours'] > 0)]] *)
Definition keep_within_day (cal_df : table CalRowT) : table CalRowT :=
  filter (fun ir => Qlt_bool (hours (snd ir)) 24 && Qlt_bool 0 (hours (snd ir)))
         cal_df.

(** [cal_df['count'] = 1] *)
Definition set_count (cal_df : table CalRowT) : table CalRowC :=
  map (fun ir => (fst ir, {| timed := snd ir; count := 1 |})) cal_df.

(** The filtering pre-step: lines 173 to 178. *)
Definition filter_step (cal_df : table CalRow) : table CalRowT :=
  keep_within_day (drop_birthdays (add_minutes_hours cal_df)).

(** A fresh [RangeIndex]. *)
Definition range_index {R : Type} (l : list R) : table R :=
  combine (map Z.of_nat (seq 0 (List.length l))) l.

Section GroupBy.

Context {R K : Type}.
Variable key : R -> K.
Variable K_eq_dec : forall a b : K, {a = b} + {a <> b}.
Variable K_leb : K -> K -> bool.

Fixpoint insert_sorted (k : K) (ks : list K) : list K :=
  match ks with
  | [] => [k]
  | k' :: ks' => if K_leb k k' then k :: ks else k' :: insert_sorted k ks'
  end.

Definition sort_keys (ks : list K) : list K := fold_right insert_sorted [] ks.

(** The distinct keys of the table, in ascending order. *)
Definition group_keys (t : table R) : list K :=
  sort_keys (nodup K_eq_dec (map key (values t))).

(** The rows of one group. *)
Definition group (k : K) (t : table R) : list R :=
  filter (fun r => if K_eq_dec (key r) k then true else false) (values t).

(** [t.groupby(key, as_index=False)]: one group per distinct key. *)
Definition groupby (t : table R) : list (K * list R) :=
  map (fun k => (k, group k t)) (group_keys t).

End GroupBy.

Module ByName.
Record agg : Type := { event_name : string; count : Z; minutes : Q }.
End ByName.

Module MonthCount.
Record agg : Type := { month : Z; count : Z }.
End MonthCount.

Module MonthHours.
Record agg : Type := { month : Z; hours : Q }.
End MonthHours.

Module YearCount.
Record agg : Type := { year : Z; count : Z }.
End YearCount.

Definition by_event_name (t : table CalRowC) : list (string * list CalRowC) :=
  groupby (fun r => event_name (base (timed r))) string_dec String.leb t.

Definition by_month (t : table CalRowC) : list (Z * list CalRowC) :=
  groupby (fun r => month (base (timed r))) Z.eq_dec Z.leb t.

Definition by_year (t : table CalRowC) : list (Z * list CalRowC) :=
  groupby (fun r => year (base (timed r))) Z.eq_dec Z.leb t.

(** [cal_df.groupby(['event_name'], as_index=False)
       ['event_name', 'count', 'minutes'].sum()] *)
Definition cal_min (cal_df : table CalRowC) : table ByName.agg :=
  range_index
    (map (fun kg => {| ByName.event_name := fst kg;
                       ByName.count := sum_Z (map count (snd kg));
                       ByName.minutes :=
                         sum_Q (map (fun r => minutes (timed r)) (snd kg)) |})
         (by_event_name cal_df)).

(** [cal_df.groupby('month', as_index=False)['count'].sum()] *)
Definition cal_month (cal_df : table CalRowC) : table MonthCount.agg :=
  range_index
    (map (fun kg => {| MonthCount.month := fst kg;
                       MonthCount.count := sum_Z (map count (snd kg)) |})
         (by_month cal_df)).

(** [cal_df.groupby('month', as_index=False)['hours'].sum()] *)
Definition cal_month_time (cal_df : table CalRowC) : table MonthHours.agg :=
  range_index
    (map (fun kg => {| MonthHours.month := fst kg;
                       MonthHours.hours :=
                         sum_Q (map (fun r => hours (timed r)) (snd kg)) |})
         (by_month cal_df)).

(** [cal_df.groupby('year', as_index=False)['count'].sum()] *)
Definition cal_year_time (cal_df : table CalRowC) : table YearCount.agg :=
  range_index
    (map (fun kg => {| YearCount.year := fst kg;
                       YearCount.count := sum_Z (map count (snd kg)) |})
         (by_year cal_df)).

(** The aggregated tables under their column names, as [plot_data]
    receives them. *)
Definition frame_month_hours (t : table MonthHours.agg) : DataFrame :=
  {| columns := ["month"; "hours"];
     rows := map (fun ir => (fst ir,
                             [("month", VInt (MonthHours.month (snd ir)));
                              ("hours", VFloat (MonthHours.hours (snd ir)))]))
                 t |}.

Definition frame_month_count (t : table MonthCount.agg) : DataFrame :=
  {| columns := ["month"; "count"];
     rows := map (fun ir => (fst ir,
                             [("month", VInt (MonthCount.month (snd ir)));
                              ("count", VInt (MonthCount.count (snd ir)))]))
                 t |}.

Definition frame_year_count (t : table YearCount.agg) : DataFrame :=
  {| columns := ["year"; "count"];
     rows := map (fun ir => (fst ir,
                             [("year", VInt (YearCount.year (snd ir)));
                              ("count", VInt (YearCount.count (snd ir)))]))
                 t |}.

Definition months : list value :=
  map VStr ["January"; "Febuary"; "March"; "April"; "May"; "June"; "July";
            "August"; "September"; "October"; "November"; "December"].

(** The table the aggregates of [get_plots] are taken from. *)
Definition counted (cal_df : table CalRow) : table CalRowC :=
  set_count (filter_step cal_df).

(** The by-name aggregate of [get_plots], as it stands once it is
    built. *)
Definition get_plots_cal_min (cal_df : table CalRow) : table ByName.agg :=
  cal_min (counted cal_df).

(** [get_plots(cal_df)]; [sort_by_minutes] is the call
    [cal_min.sort_values('minutes', ascending=False)] into pandas: the
    sorted copy it returns is dropped, an error it raises is not. *)
Definition get_plots {Fig : Type} (plt : Pyplot Fig)
    (sort_by_minutes : table ByName.agg -> outcome (table ByName.agg))
    (cal_df : table CalRow) : outcome (list Fig) :=
  let cal_df := add_minutes_hours cal_df in
  let cal_df := drop_birthdays cal_df in
  let cal_df := keep_within_day cal_df in
  let cal_df := set_count cal_df in
  let cal_min := cal_min cal_df in
  _ <- sort_by_minutes cal_min ;;
  let cal_month := cal_month cal_df in
  let cal_month_time := cal_month_time cal_df in
  let cal_year_time := cal_year_time cal_df in
  fig1 <- plot_data plt (frame_month_hours cal_month_time) months
            "month" "hours" "Month" "Hours Spent "
            "Total Time Spent Per Month" (15, 5) "#db3236" ;;
  fig2 <- plot_data plt (frame_month_count cal_month) months
            "month" "count" "Month" "Number of Events "
            "Total Events Per Month" (15, 5) "#db3236" ;;
  fig3 <- plot_data plt (frame_year_count cal_year_time)
            [VInt 2016; VInt 2017; VInt 2018]
            "year" "count" "Year" "Number of Events" "Number of Events"
            (10, 5) "#db3236" ;;
  Return [fig1; fig2; fig3].

(** ** linkedin.py *)

Definition value_is_str (v : value) (s : string) : bool :=
  match v with
  | VStr s' => String.eqb s' s
  | _ => false
  end.

(** [df[df[c] == s]] *)
Definition where_eq (df : DataFrame) (c s : string) : outcome DataFrame :=
  col <- getitem df c ;;
  let mask := map (fun iv => value_is_str (snd iv) s) col in
  Return {| columns := columns df;
            rows := map fst (filter snd (combine (rows df) mask)) |}.

(** [get_sent_receive_invites(df, direction_column)] *)
Definition get_sent_receive_invites (df : DataFrame) (direction_column : string)
  : outcome (DataFrame * DataFrame) :=
  invites_sent <- where_eq df direction_column "OUTGOING" ;;
  invites_received <- where_eq df direction_column "INCOMING" ;;
  Return (invites_sent, invites_received).

(** [word in x] on strings. *)
Fixpoint str_in (word x : string) : bool :=
  String.prefix word x ||
  match x with
  | "" => false
  | String _ x' => str_in word x'
  end.

Definition words : list string :=
  ["Recruiter"; "Talent"; "Sourcer"; "Recruiting"].

(** The lambda applied to the [Position] column after [dropna()]; a missing
    cell is skipped and stays missing when the result is assigned back. *)
Definition relabel (v : value) : outcome value :=
  match v with
  | VStr x =>
      Return (VStr (if existsb (fun word => str_in word x) words
                    then "Recruiter" else x))
  | VNaN => Return VNaN
  | _ => Raise (TypeError "argument is not iterable")
  end.

Fixpoint set_cell (c : string) (v : value) (r : row) : row :=
  match r with
  | [] => [(c, v)]
  | (c', v') :: r' =>
      if String.eqb c c' then (c, v) :: r' else (c', v') :: set_cell c v r'
  end.

Fixpoint relabel_rows (c : string) (t : table row) : outcome (table row) :=
  match t with
  | [] => Return []
  | (i, r) :: t' =>
      v <- relabel (cell c r) ;;
      t'' <- relabel_rows c t' ;;
      Return ((i, set_cell c v r) :: t'')
  end.

(** [import_recruiters_contacts(path)]; [read_safely] is the reader the
    function calls, which the module does not define. *)
Definition import_recruiters_contacts
    (read_safely : string -> outcome DataFrame) (path : string)
  : outcome DataFrame :=
  contacts_df <- read_safely "./connections.csv" ;;
  _ <- getitem contacts_df "Position" ;;
  rows' <- relabel_rows "Position" (rows contacts_df) ;;
  let contacts_df := {| columns := columns contacts_df; rows := rows' |} in
  recruiters_df <- where_eq contacts_df "Position" "Recruiter" ;;
  Return recruiters_df.

(** A reader over a file system given as a list of paths with their
    parsed contents. *)
Fixpoint read_from (fs : list (string * DataFrame)) (p : string)
  : outcome DataFrame :=
  match fs with
  | [] => Raise (IOError p)
  | (p', df) :: fs' => if String.eqb p p' then Return df else read_from fs' p
  end.

(** ** Reference notions the properties are stated against *)

(** Grouping read as a whole-name match: the first rule whose pattern
    matches the entire name gives the replacement. *)
Fixpoint group_by_fullmatch (s : string) (groups : list (Re.pattern * string))
  : string :=
  match groups with
  | [] => s
  | (pattern, replacement) :: rest =>
      if Re.fullmatch pattern s then replacement
      else group_by_fullmatch s rest
  end.


(** The test the two filters of [get_plots] apply, on one record. *)
Definition kept (r : CalRow) : bool :=
  negb (str_contains "birthday" (event_name r)) &&
  (Qlt_bool (duration r / 3600) 24 && Qlt_bool 0 (duration r / 3600)).

(** The records of the scenario: a half-hour "Standup" and a
    whole-day "Birthday". *)
Definition standup (d m y h : Z) : CalRow :=
  {| day := d; month := m; year := y; hour := h;
     event_name := "Standup"; duration := 1800 |}.

Definition birthday (d m y h : Z) : CalRow :=
  {| day := d; month := m; year := y; hour := h;
     event_name := "Birthday"; duration := 86400 |}.

(** A backend that records the calls it receives and never raises. *)
Definition recording_plt : Pyplot (list string) :=
  {| subplots := Return ["subplots"];
     ax_bar := fun _ _ color fig => Return (("bar " ++ color) :: fig);
     ax_set_title := fun t fig => Return (("title " ++ t) :: fig);
     ax_set_xlabel := fun l fig => Return (("xlabel " ++ l) :: fig);
     ax_set_ylabel := fun l fig => Return (("ylabel " ++ l) :: fig);
     xticks := fun _ _ fig => Return ("xticks" :: fig);
     set_size_inches := fun _ fig => Return ("size" :: fig) |}.

(** A backend on which drawing bars fails. *)
Definition failing_plt : Pyplot (list string) :=
  {| subplots := Return ["subplots"];
     ax_bar := fun _ _ _ _ => Raise (ValueError "shape mismatch");
     ax_set_title := fun t fig => Return (("title " ++ t) :: fig);
     ax_set_xlabel := fun l fig => Return (("xlabel " ++ l) :: fig);
     ax_set_ylabel := fun l fig => Return (("ylabel " ++ l) :: fig);
     xticks := fun _ _ fig => Return ("xticks" :: fig);
     set_size_inches := fun _ fig => Return ("size" :: fig) |}.

(** A stand-in for the sort of the by-name table: rows in descending
    order of their minutes; on a table without rows it raises the
    [KeyError] of the column it is asked to sort by. *)
Fixpoint insert_by_minutes (a : Z * ByName.agg) (t : table ByName.agg)
  : table ByName.agg :=
  match t with
  | [] => [a]
  | b :: t' =>
      if Qle_bool (ByName.minutes (snd b)) (ByName.minutes (snd a))
      then a :: t
      else b :: insert_by_minutes a t'
  end.

Definition sort_by_minutes_sample (t : table ByName.agg)
  : outcome (table ByName.agg) :=
  match t with
  | [] => Raise (KeyError "minutes")
  | _ => Return (fold_right insert_by_minutes [] t)
  end.

Definition sample_moment (d h ts : Z) : Arrow :=
  {| datetime := {| Dt.year := 2017; Dt.month := 11; Dt.day := d;
                    Dt.hour := h |};
     timestamp_us := ts |}.

(** An event that ends an hour before it starts. *)
Definition backwards_event : Event :=
  {| begin := sample_moment 3 10 1509703200000000;
     end_ := sample_moment 3 9 1509699600000000;
     name := "Review" |}.

Definition forward_event : Event :=
  {| begin := sample_moment 3 9 1509699600000000;
     end_ := sample_moment 3 10 1509703200000000;
     name := "Standup" |}.

Definition sample_invites : DataFrame :=
  {| columns := ["From"; "Direction"];
     rows := [(0, [("From", VStr "a"); ("Direction", VStr "OUTGOING")]);
              (1, [("From", VStr "b"); ("Direction", VStr "INCOMING")]);
              (2, [("From", VStr "c"); ("Direction", VStr "PENDING")]);
              (3, [("From", VStr "d"); ("Direction", VNaN)])] |}.

Definition sample_connections : DataFrame :=
  {| columns := ["Name"; "Position"];
     rows := [(0, [("Name", VStr "a"); ("Position", VStr "Technical Recruiter")]);
              (1, [("Name", VStr "b"); ("Position", VStr "Engineer")]);
              (2, [("Name", VStr "c"); ("Position", VNaN)]);
              (3, [("Name", VStr "d"); ("Position", VStr "Talent Partner")])] |}.

(** ** The rest of the two modules *)

Definition labels {R : Type} (t : table R) : list Z := map fst t.

(** A backend none of whose calls raises. *)
Definition quiet {Fig : Type} (plt : Pyplot Fig) : Prop :=
  (exists fig, subplots plt = Return fig) /\
  (forall xs ys color fig, exists fig',
      ax_bar plt xs ys color fig = Return fig') /\
  (forall t fig, exists fig', ax_set_title plt t fig = Return fig') /\
  (forall l fig, exists fig', ax_set_xlabel plt l fig = Return fig') /\
  (forall l fig, exists fig', ax_set_ylabel plt l fig = Return fig') /\
  (forall ts ls fig, exists fig', xticks plt ts ls fig = Return fig') /\
  (forall size fig, exists fig', set_size_inches plt size fig = Return fig').

Module CalDates.
Record agg (Timestamp : Type) : Type := { Date : Timestamp; count : Z }.
Arguments Date {Timestamp} _.
Arguments count {Timestamp} _.
End CalDates.

Section GetCalDates.

Context {Timestamp : Type}.

(** [pd.to_datetime] on one row of year, month and day: the timestamp, or
    nothing when the three numbers do not make a date it can hold. *)
Variable assemble : Z -> Z -> Z -> option Timestamp.

(** [pd.to_datetime(cal_df[['day', 'month', 'year']])]: a series under the
    labels of [cal_df], or a [ValueError] when some row does not
    assemble. *)
Fixpoint to_datetime (cal_df : table CalRow) : outcome (table Timestamp) :=
  match cal_df with
  | [] => Return []
  | (i, r) :: cal_df' =>
      match assemble (year r) (month r) (day r) with
      | Some d =>
          ds <- to_datetime cal_df' ;;
          Return ((i, d) :: ds)
      | None => Raise (ValueError "cannot assemble the datetimes")
      end
  end.

(** [get_cal_dates(cal_df)]: the empty table takes the labels of the
    series assigned to ['Date']; ['count'] is then 1 on each of them. *)
Definition get_cal_dates (cal_df : table CalRow)
  : outcome (table (CalDates.agg Timestamp)) :=
  dates <- to_datetime cal_df ;;
  Return (map (fun id => (fst id, {| CalDates.Date := snd id;
                                     CalDates.count := 1 |}))
              dates).

End GetCalDates.

Module Linkedin.

(** [plot(df, x, y, xlabel, ylabel, title, fig_size, fig_color)] of
    linkedin.py; it ends on a bare [return]. *)
Definition plot {Fig : Type} (plt : Pyplot Fig) (df : DataFrame)
    (x y xlabel ylabel title : string) (fig_size : Z * Z)
    (fig_color : string) : outcome unit :=
  fig <- subplots plt ;;
  xs <- getitem df x ;;
  ys <- getitem df y ;;
  fig <- ax_bar plt (values xs) (values ys) fig_color fig ;;
  fig <- ax_set_title plt title fig ;;
  fig <- ax_set_xlabel plt xlabel fig ;;
  fig <- ax_set_ylabel plt ylabel fig ;;
  fig <- set_size_inches plt fig_size fig ;;
  Return tt.

End Linkedin.

(** [x] has [word] somewhere inside. *)
Definition substring_of (word x : string) : Prop :=
  exists a b, x = a ++ word ++ b.

(** A position that mentions one of the recruiting words. *)
Definition recruiting_position (x : string) : Prop :=
  exists word, In word words /\ substring_of word x.

(** A day, in microseconds. *)
Definition one_day_us : Z := 86400000000.

Definition sample_dates (y m d : Z) : option (Z * Z * Z) :=
  if (1 <=? m) && (m <=? 12) && (1 <=? d) && (d <=? 28)
  then Some (y, m, d) else None.

Definition numeric_positions : DataFrame :=
  {| columns := ["Name"; "Position"];
     rows := [(0, [("Name", VStr "a"); ("Position", VInt 7)])] |}.

(** The row holds a position that mentions one of the recruiting words. *)
Definition is_recruiting (r : row) : bool :=
  match cell "Position" r with
  | VStr x => existsb (fun word => str_in word x) words
  | _ => false
  end.

(** A cell that holds text or nothing. *)
Definition text_or_missing (v : value) : Prop :=
  v = VNaN \/ exists x, v = VStr x.

(** The direction of a row is neither of the two that
    [get_sent_receive_invites] looks for. *)
Definition other_direction (direction_column : string) (r : row) : bool :=
  negb (value_is_str (cell direction_column r) "OUTGOING") &&
  negb (value_is_str (cell direction_column r) "INCOMING").

(** The calls a chart is made of. *)
Inductive call : Type :=
| Bar (xs heights : list value) (color : string)
| Title (s : string)
| XLabel (s : string)
| YLabel (s : string)
| XTicks (ticks labels : list value)
| Size (size : Z * Z).

(** A backend that does not fail and keeps, as its figure, the calls it
    received in the order they came. *)
Definition tracing_plt : Pyplot (list call) :=
  {| subplots := Return [];
     ax_bar := fun xs ys color fig => Return (fig ++ [Bar xs ys color])%list;
     ax_set_title := fun t fig => Return (fig ++ [Title t])%list;
     ax_set_xlabel := fun l fig => Return (fig ++ [XLabel l])%list;
     ax_set_ylabel := fun l fig => Return (fig ++ [YLabel l])%list;
     xticks := fun ts ls fig => Return (fig ++ [XTicks ts ls])%list;
     set_size_inches := fun size fig => Return (fig ++ [Size size])%list |}.

(** The calls of one bar chart with tick labels. *)
Definition bar_chart (xs heights labels : list value)
    (xlabel ylabel title : string) (size : Z * Z) (color : string)
  : list call :=
  [Bar xs heights color; Title title; XLabel xlabel; YLabel ylabel;
   XTicks xs labels; Size size].

(** *** clean_df *)

Definition notna (v : value) : bool :=
  match v with
  | VNaN => false
  | _ => true
  end.

Section CleanDf.

(** [pd.to_datetime(...).dt.date] on one cell: the day it names, as a day
    number; nothing for a missing cell; an error for a cell that is no
    date. *)
Variable to_date : value -> outcome (option Z).

(** [df[date_column] = pd.to_datetime(df[date_column]).dt.date]: every
    row with the day of its date cell. *)
Fixpoint with_dates (date_column : string) (t : table row)
  : outcome (table (option Z * row)) :=
  match t with
  | [] => Return []
  | (i, r) :: t' =>
      d <- to_date (cell date_column r) ;;
      t'' <- with_dates date_column t' ;;
      Return ((i, (d, r)) :: t'')
  end.

(** [df[date_column] = df[date_column] - pd.to_timedelta(7, unit='d')] *)
Definition minus_week (t : table (option Z * row)) : table (option Z * row) :=
  map (fun idr => (fst idr, (option_map (fun d => d - 7) (fst (snd idr)),
                             snd (snd idr))))
      t.

(** The rows that have a date; [groupby] leaves the others out. *)
Definition with_key (t : table (option Z * row)) : table (Z * row) :=
  flat_map (fun idr => match fst (snd idr) with
                       | Some d => [(fst idr, (d, snd (snd idr)))]
                       | None => []
                       end)
           t.

(** [count()] of one column in one group: the cells that are not
    missing. *)
Definition count_column (c : string) (g : list (Z * row)) : Z :=
  Z.of_nat (List.length (filter (fun dr => notna (cell c (snd dr))) g)).

Definition other_columns (df : DataFrame) (date_column : string)
  : list string :=
  filter (fun c => negb (String.eqb c date_column)) (columns df).

(** [clean_df(df, date_column)]: one row per day, with the day and the
    count of every other column. *)
Definition clean_df (df : DataFrame) (date_column : string)
  : outcome (table (Z * list (string * Z))) :=
  _ <- getitem df date_column ;;
  dated <- with_dates date_column (rows df) ;;
  let dated := minus_week dated in
  let df_by_week :=
    map (fun kg => (fst kg,
                    map (fun c => (c, count_column c (snd kg)))
                        (other_columns df date_column)))
        (groupby fst Z.eq_dec Z.leb (with_key dated)) in
  Return (range_index df_by_week).

(** The row has its date on the day that becomes [d], and a value in
    column [c]. *)
Definition counts_for (date_column : string) (d : Z) (c : string)
    (ir : Z * row) : bool :=
  match to_date (cell date_column (snd ir)) with
  | Return (Some d0) => (d0 - 7 =? d) && notna (cell c (snd ir))
  | _ => false
  end.

End CleanDf.

(** A stand-in for the date parser that knows two days, Monday 30 and
    Tuesday 31 October 2017, and a missing cell. *)
Definition sample_to_date (v : value) : outcome (option Z) :=
  match v with
  | VStr s =>
      if String.eqb s "2017-10-30" then Return (Some 736632)
      else if String.eqb s "2017-10-31" then Return (Some 736633)
      else Raise (ValueError ("Unknown string format: " ++ s))
  | VNaN => Return None
  | _ => Raise (ValueError "not a date")
  end.

Definition sample_dated_invites : DataFrame :=
  {| columns := ["Sent At"; "From"; "Message"];
     rows := [(0, [("Sent At", VStr "2017-10-30"); ("From", VStr "a");
                   ("Message", VStr "hi")]);
              (1, [("Sent At", VStr "2017-10-31"); ("From", VStr "b");
                   ("Message", VNaN)]);
              (2, [("Sent At", VStr "2017-10-30"); ("From", VStr "c");
                   ("Message", VNaN)]);
              (3, [("Sent At", VNaN); ("From", VStr "d");
                   ("Message", VStr "x")])] |}.

(** * Properties *)

(** ** Strings *)

Lemma append_nil_r (s : string) : s ++ "" = s.
Proof.
  induction s as [|a s IH]; simpl; [reflexivity | now rewrite IH].
Qed.

Lemma append_assoc (s t u : string) : (s ++ t) ++ u = s ++ t ++ u.
Proof.
  induction s as [|a s IH]; simpl; [reflexivity | now rewrite IH].
Qed.

Lemma append_eq_nil (s t : string) : s ++ t = "" -> s = "" /\ t = "".
Proof.
  destruct s; simpl; intros H; [now split | discriminate].
Qed.

(** ** The matcher agrees with the language of a pattern *)

Lemma nullable_lang (p : Re.pattern) : Re.nullable p = true <-> Re.lang p "".
Proof.
  split.
  - induction p; simpl; intros H; try discriminate.
    + constructor.
    + apply andb_true_iff in H as [Hp Hq].
      change "" with ("" ++ ""). constructor; auto.
    + apply orb_true_iff in H as [H | H].
      * apply Re.lang_AltL; auto.
      * apply Re.lang_AltR; auto.
    + constructor.
  - intros H. remember "" as w eqn:Hw.
    induction H; simpl; try discriminate; auto.
    + apply append_eq_nil in Hw as [-> ->].
      rewrite IHlang1, IHlang2; auto.
    + rewrite IHlang; auto.
    + rewrite IHlang; auto using orb_true_r.
Qed.

Lemma deriv_sound (a : ascii) (p : Re.pattern) :
  forall w, Re.lang (Re.deriv a p) w -> Re.lang p (String a w).
Proof.
  induction p; simpl; intros w H.
  - inversion H.
  - inversion H.
  - destruct (Ascii.eqb_spec a c) as [-> | _]; inversion H; subst.
    constructor.
  - inversion H; subst. constructor.
  - destruct (Re.nullable p1) eqn:Hn.
    + inversion H as [| | | | ? ? ? HL | ? ? ? HR | |]; subst.
      * inversion HL; subst.
        change (String a (u ++ v)) with (String a u ++ v).
        constructor; auto.
      * change (String a w) with ("" ++ String a w).
        constructor; auto. now apply nullable_lang.
    + inversion H; subst.
      change (String a (u ++ v)) with (String a u ++ v).
      constructor; auto.
  - inversion H; subst.
    + apply Re.lang_AltL; auto.
    + apply Re.lang_AltR; auto.
  - inversion H; subst.
    change (String a (u ++ v)) with (String a u ++ v).
    constructor; auto.
Qed.

Lemma deriv_complete (a : ascii) (p : Re.pattern) (s : string) :
  Re.lang p s -> forall w, s = String a w -> Re.lang (Re.deriv a p) w.
Proof.
  induction 1 as [ | c | c | p q u v Hp IHp Hq IHq | p q w' Hp IHp
                 | p q w' Hq IHq | p | p u v Hp IHp Hs IHs ];
    intros w E; simpl.
  - discriminate.
  - injection E as -> <-. rewrite Ascii.eqb_refl. constructor.
  - injection E as _ <-. constructor.
  - destruct u as [|b u]; simpl in E.
    + apply nullable_lang in Hp. rewrite Hp.
      apply Re.lang_AltR. auto.
    + injection E as -> <-.
      specialize (IHp u eq_refl).
      destruct (Re.nullable p).
      * apply Re.lang_AltL. constructor; auto.
      * constructor; auto.
  - apply Re.lang_AltL; auto.
  - apply Re.lang_AltR; auto.
  - discriminate.
  - destruct u as [|b u]; simpl in E.
    + apply IHs; auto.
    + injection E as -> <-.
      constructor; auto.
Qed.

Lemma deriv_lang (a : ascii) (p : Re.pattern) (w : string) :
  Re.lang (Re.deriv a p) w <-> Re.lang p (String a w).
Proof.
  split; [apply deriv_sound | intros H; eapply deriv_complete; eauto].
Qed.

Lemma fullmatch_lang (s : string) :
  forall p, Re.fullmatch p s = true <-> Re.lang p s.
Proof.
  induction s as [|a s IH]; intros p; simpl.
  - apply nullable_lang.
  - rewrite IH. apply deriv_lang.
Qed.

Lemma match_prefix (s : string) :
  forall p, Re.match_ p s = true <-> Re.matches_prefix p s.
Proof.
  unfold Re.matches_prefix.
  induction s as [|a s IH]; intros p; simpl.
  - rewrite orb_false_r, nullable_lang. split.
    + intros H. exists "", "". auto.
    + intros (u & v & E & H). symmetry in E.
      apply append_eq_nil in E as [-> _]. exact H.
  - rewrite orb_true_iff, nullable_lang, IH. split.
    + intros [H | (u & v & -> & H)].
      * exists "", (String a s). auto.
      * exists (String a u), v. split; [reflexivity | now apply deriv_lang].
    + intros (u & v & E & H). destruct u as [|b u]; simpl in E.
      * left. exact H.
      * injection E as <- ->. right.
        exists u, v. split; [reflexivity | now apply deriv_lang].
Qed.

Lemma search_somewhere (s : string) :
  forall p, Re.search p s = true <-> Re.matches_somewhere p s.
Proof.
  unfold Re.matches_somewhere.
  induction s as [|a s IH]; intros p.
  - simpl. rewrite !orb_false_r, nullable_lang. split.
    + intros H. exists "", "", "". auto.
    + intros (t & u & v & E & H). symmetry in E.
      apply append_eq_nil in E as [_ E].
      apply append_eq_nil in E as [-> _]. exact H.
  - change (Re.search p (String a s))
      with (Re.match_ p (String a s) || Re.search p s).
    rewrite orb_true_iff, match_prefix, IH. split.
    + intros [(u & v & E & H) | (t & u & v & -> & H)].
      * exists "", u, v. auto.
      * exists (String a t), u, v. auto.
    + intros (t & u & v & E & H). destruct t as [|b t]; simpl in E.
      * left. exists u, v. auto.
      * injection E as <- ->. right. exists t, u, v. auto.
Qed.

(** ** Grouping rules *)

Lemma literal_lang (w : string) : Re.lang (Re.literal w) w.
Proof.
  induction w as [|c w IH]; simpl.
  - constructor.
  - change (String c w) with (String c "" ++ w).
    constructor; [constructor | exact IH].
Qed.

(** The rule (Stand, Meeting) applies to "Standup": the pattern matches
    the first five characters. *)
Example Stand_is_a_prefix_match :
  Re.matches_prefix (Re.literal "Stand") "Standup" /\
  Re.match_ (Re.literal "Stand") "Standup" = true /\
  Re.fullmatch (Re.literal "Stand") "Standup" = false /\
  Re.match_ (Re.literal "tand") "Standup" = false.
Proof.
  split; [| repeat split].
  exists "Stand", "up". split; [reflexivity | apply literal_lang].
Qed.

(** C2, as amended.  [_group] returns the replacement of the first rule
    whose pattern matches some prefix of the name, that is a match
    anchored at the beginning of the name and free to stop before its
    end; when no rule matches in this way the name comes back unchanged. *)
Theorem _group_first_prefix_match (s : string)
    (groups : list (Re.pattern * string)) :
  (exists before pattern replacement after,
      groups = (before ++ (pattern, replacement) :: after)%list /\
      Forall (fun g => ~ Re.matches_prefix (fst g) s) before /\
      Re.matches_prefix pattern s /\
      _group s groups = replacement)
  \/
  (Forall (fun g => ~ Re.matches_prefix (fst g) s) groups /\
   _group s groups = s).
Proof.
  induction groups as [|[p r] rest IH]; simpl.
  - right. split; [constructor | reflexivity].
  - destruct (Re.match_ p s) eqn:Hm.
    + left. exists [], p, r, rest. simpl.
      repeat split; [constructor | now apply match_prefix].
    + assert (Hno : ~ Re.matches_prefix p s).
      { intros H. apply match_prefix in H. congruence. }
      destruct IH as [(before & p' & r' & after & -> & Hb & Hp & Hg)
                     | [Hall Hg]].
      * left. exists ((p, r) :: before), p', r', after.
        repeat split; auto.
      * right. split; auto.
Qed.

(** C2, as stated, fails: the pattern [Stand] matches no rule on the
    whole name "Standup", so the name should be kept, but [_group]
    answers with the replacement. *)
Lemma _group_fullmatch_counterexample :
  let groups := [(Re.literal "Stand", "Meeting")] in
  (forall g, In g groups -> ~ Re.lang (fst g) "Standup") /\
  group_by_fullmatch "Standup" groups = "Standup" /\
  _group "Standup" groups = "Meeting" /\
  _group "Standup" groups <> group_by_fullmatch "Standup" groups.
Proof.
  simpl. repeat split.
  - intros g [<- | []] H. simpl in H.
    apply fullmatch_lang in H. discriminate H.
  - discriminate.
Qed.

(** ** Charts: who catches what *)

Lemma raises_bind {A B : Type} (m : outcome A) (k : A -> outcome B) :
  raises m -> raises (bind m k).
Proof. intros [e ->]. exists e. reflexivity. Qed.

Lemma raises_bind_Return {A B : Type} (m : outcome A) (k : A -> outcome B) :
  (forall a, raises (k a)) -> raises (bind m k).
Proof.
  intros H. destruct m as [a | e]; simpl; [apply H | now exists e].
Qed.

Lemma raises_not_Return {A : Type} (m : outcome A) (a : A) :
  raises m -> m <> Return a.
Proof. intros [e ->]. discriminate. Qed.

(** [plot] hands something back whatever its arguments and whatever the
    backend does: the figure when every call went through, the string
    otherwise. *)
Lemma plot_never_raises {Fig : Type} (plt : Pyplot Fig)
    (x y z : list value) (xlabel ylabel title : string) (fig_size : Z * Z)
    (fig_color flag : string) :
  (exists fig,
      plot_try plt x y z xlabel ylabel title fig_size fig_color flag
        = Return fig /\
      plot plt x y z xlabel ylabel title fig_size fig_color flag
        = Return (Chart fig))
  \/
  (raises (plot_try plt x y z xlabel ylabel title fig_size fig_color flag) /\
   plot plt x y z xlabel ylabel title fig_size fig_color flag
     = Return (Message cant_generate_plot)).
Proof.
  unfold plot.
  destruct (plot_try plt x y z xlabel ylabel title fig_size fig_color flag)
    as [fig | e].
  - left. exists fig. auto.
  - right. split; [now exists e | reflexivity].
Qed.

Lemma getitem_missing (df : DataFrame) (c : string) :
  has_column df c = false -> getitem df c = Raise (KeyError c).
Proof. unfold getitem. now intros ->. Qed.

Lemma getitem_present (df : DataFrame) (c : string) :
  has_column df c = true ->
  getitem df c = Return (map (fun ir => (fst ir, cell c (snd ir))) (rows df)).
Proof. unfold getitem. now intros ->. Qed.

(** C1, where the code departs from it.  [plot_data] has no handler: a
    chart specification naming a column its table lacks makes it raise,
    whatever the backend; it returns no figure and no failure string. *)
Theorem plot_data_raises_on_missing_column {Fig : Type} (plt : Pyplot Fig)
    (x : DataFrame) (y : list value)
    (x_column y_column xlabel ylabel title : string)
    (fig_size : Z * Z) (fig_color : string) :
  has_column x x_column = false ->
  raises (plot_data plt x y x_column y_column xlabel ylabel title
            fig_size fig_color) /\
  forall fig,
    plot_data plt x y x_column y_column xlabel ylabel title
      fig_size fig_color <> Return fig.
Proof.
  intros Hmiss.
  assert (R : raises (plot_data plt x y x_column y_column xlabel ylabel title
                        fig_size fig_color)).
  { unfold plot_data. apply raises_bind_Return. intros fig.
    apply raises_bind. rewrite (getitem_missing _ _ Hmiss).
    now exists (KeyError x_column). }
  split; [exact R | intros fig; now apply raises_not_Return].
Qed.

Lemma plot_data_raises_on_missing_column_witness :
  has_column {| columns := ["month"; "hours"]; rows := [] |} "week" = false /\
  (raises (plot_data recording_plt
             {| columns := ["month"; "hours"]; rows := [] |} months
             "week" "hours" "Week" "Hours" "Hours per week" (15, 5) "#db3236")
   /\
   forall fig,
     plot_data recording_plt
       {| columns := ["month"; "hours"]; rows := [] |} months
       "week" "hours" "Week" "Hours" "Hours per week" (15, 5) "#db3236"
     <> Return fig).
Proof.
  split; [reflexivity |].
  apply (plot_data_raises_on_missing_column recording_plt).
  reflexivity.
Defined.

(** The same bad chart through both renderers: [plot] answers with the
    string, [plot_data] raises. *)
Lemma plot_recovers_plot_data_does_not :
  plot failing_plt [VStr "a"] [VInt 1; VInt 2] [VInt 0] "x" "y" "t" (15, 5)
       "#db3236" "-T"
    = Return (Message "Can't generate plot") /\
  plot_data failing_plt
    {| columns := ["month"; "hours"];
       rows := [(0, [("month", VInt 1); ("hours", VFloat 2)])] |}
    months "month" "hours" "x" "y" "t" (15, 5) "#db3236"
    = Raise (ValueError "shape mismatch").
Proof. split; reflexivity. Qed.

(** When a chart of [get_plots] fails, the run ends there: no chart is
    returned, not even those that could have been drawn. *)
Lemma get_plots_aborts_on_first_failure {Fig : Type} (plt : Pyplot Fig)
    (sort_by_minutes : table ByName.agg -> outcome (table ByName.agg))
    (cal_df : table CalRow) (sorted : table ByName.agg) :
  sort_by_minutes (cal_min (counted cal_df)) = Return sorted ->
  raises (plot_data plt
            (frame_month_hours (cal_month_time (counted cal_df))) months
            "month" "hours" "Month" "Hours Spent "
            "Total Time Spent Per Month" (15, 5) "#db3236") ->
  raises (get_plots plt sort_by_minutes cal_df).
Proof.
  intros Hs H. unfold get_plots.
  fold (filter_step cal_df). fold (counted cal_df).
  rewrite Hs. cbn [bind]. apply raises_bind. exact H.
Qed.

(** ** Date arguments *)

Lemma _valid_date_Return (arrow_get : string -> outcome Arrow)
    (s : string) (d : Arrow) :
  arrow_get s = Return d -> _valid_date arrow_get s = Return d.
Proof. unfold _valid_date. now intros ->. Qed.

Lemma _valid_date_TypeError (arrow_get : string -> outcome Arrow)
    (s msg : string) :
  arrow_get s = Raise (TypeError msg) ->
  _valid_date arrow_get s
    = Raise (ArgumentTypeError ("Not a valid date: '" ++ s ++ "'.")).
Proof. unfold _valid_date. now intros ->. Qed.

(** C3, where the code departs from it.  [_valid_date] turns only a
    [TypeError] into the "Not a valid date" error; any other error of the
    date parser, such as the [ParserError] it raises on a string it cannot
    read, leaves [_valid_date] as it is. *)
Theorem _valid_date_other_error_escapes
    (arrow_get : string -> outcome Arrow) (s : string) (e : exn) :
  arrow_get s = Raise e ->
  is_TypeError e = false ->
  _valid_date arrow_get s = Raise e.
Proof.
  intros H He. unfold _valid_date. rewrite H.
  destruct e; simpl in He; try discriminate; reflexivity.
Qed.

Lemma _valid_date_other_error_escapes_witness :
  arrow_get_sample "next tuesday"
    = Raise (ParserError
               "Could not match input to any of the formats on 'next tuesday'")
  /\
  is_TypeError
    (ParserError
       "Could not match input to any of the formats on 'next tuesday'")
    = false
  /\
  _valid_date arrow_get_sample "next tuesday"
    = Raise (ParserError
               "Could not match input to any of the formats on 'next tuesday'").
Proof.
  split; [reflexivity |]. split; [reflexivity |].
  apply (_valid_date_other_error_escapes arrow_get_sample "next tuesday");
    reflexivity.
Defined.

(** ** Invites and contacts *)

Lemma value_is_str_true (v : value) (s : string) :
  value_is_str v s = true <-> v = VStr s.
Proof.
  destruct v; simpl; split; try discriminate.
  - intros H. apply String.eqb_eq in H. now subst.
  - intros [= ->]. apply String.eqb_refl.
Qed.

Lemma mask_select (c s : string) (t : table row) :
  map fst
    (filter snd
       (combine t
          (map (fun iv : Z * value => value_is_str (snd iv) s)
             (map (fun ir : Z * row => (fst ir, cell c (snd ir))) t))))
  = filter (fun ir => value_is_str (cell c (snd ir)) s) t.
Proof.
  induction t as [|ir t IH]; simpl; [reflexivity |].
  destruct (value_is_str (cell c (snd ir)) s); simpl; now rewrite IH.
Qed.

Lemma where_eq_present (df : DataFrame) (c s : string) :
  has_column df c = true ->
  where_eq df c s
  = Return {| columns := columns df;
              rows := filter (fun ir => value_is_str (cell c (snd ir)) s)
                             (rows df) |}.
Proof.
  intros H. unfold where_eq. rewrite (getitem_present _ _ H). simpl.
  now rewrite mask_select.
Qed.

Lemma where_eq_In (df out : DataFrame) (c s : string) :
  where_eq df c s = Return out ->
  forall ir, In ir (rows out) <->
             In ir (rows df) /\ cell c (snd ir) = VStr s.
Proof.
  intros H ir. unfold where_eq, getitem in H.
  destruct (has_column df c); simpl in H; [| discriminate].
  injection H as <-. simpl. rewrite mask_select, filter_In.
  now rewrite value_is_str_true.
Qed.

(** C10.  On a table that has the direction column,
    [get_sent_receive_invites] returns two tables: the first holds exactly
    the rows whose direction is 'OUTGOING', the second exactly those whose
    direction is 'INCOMING'; no row is in both, and a row with any other
    direction is in neither. *)
Theorem get_sent_receive_invites_split (df : DataFrame)
    (direction_column : string) :
  has_column df direction_column = true ->
  exists invites_sent invites_received,
    get_sent_receive_invites df direction_column
      = Return (invites_sent, invites_received) /\
    columns invites_sent = columns df /\
    columns invites_received = columns df /\
    (forall ir, In ir (rows invites_sent) <->
                In ir (rows df) /\
                cell direction_column (snd ir) = VStr "OUTGOING") /\
    (forall ir, In ir (rows invites_received) <->
                In ir (rows df) /\
                cell direction_column (snd ir) = VStr "INCOMING") /\
    (forall ir, ~ (In ir (rows invites_sent) /\
                   In ir (rows invites_received))) /\
    (forall ir, cell direction_column (snd ir) <> VStr "OUTGOING" ->
                cell direction_column (snd ir) <> VStr "INCOMING" ->
                ~ In ir (rows invites_sent) /\
                ~ In ir (rows invites_received)).
Proof.
  intros Hcol. unfold get_sent_receive_invites.
  destruct (where_eq df direction_column "OUTGOING") as [sent | e] eqn:Hs.
  2: { rewrite (where_eq_present _ _ _ Hcol) in Hs. discriminate. }
  destruct (where_eq df direction_column "INCOMING") as [recv | e] eqn:Hr.
  2: { rewrite (where_eq_present _ _ _ Hcol) in Hr. discriminate. }
  pose proof (where_eq_In _ _ _ _ Hs) as HS.
  pose proof (where_eq_In _ _ _ _ Hr) as HR.
  exists sent, recv. simpl.
  split; [reflexivity |].
  split; [rewrite (where_eq_present _ _ _ Hcol) in Hs; now injection Hs as <- |].
  split; [rewrite (where_eq_present _ _ _ Hcol) in Hr; now injection Hr as <- |].
  split; [exact HS |]. split; [exact HR |]. split.
  - intros ir [H1 H2]. apply HS in H1 as [_ H1]. apply HR in H2 as [_ H2].
    congruence.
  - intros ir Hout Hin. split; intros H.
    + apply HS in H as [_ H]. contradiction.
    + apply HR in H as [_ H]. contradiction.
Qed.

Lemma get_sent_receive_invites_split_witness :
  has_column sample_invites "Direction" = true /\
  exists invites_sent invites_received,
    get_sent_receive_invites sample_invites "Direction"
      = Return (invites_sent, invites_received) /\
    columns invites_sent = columns sample_invites /\
    columns invites_received = columns sample_invites /\
    (forall ir, In ir (rows invites_sent) <->
                In ir (rows sample_invites) /\
                cell "Direction" (snd ir) = VStr "OUTGOING") /\
    (forall ir, In ir (rows invites_received) <->
                In ir (rows sample_invites) /\
                cell "Direction" (snd ir) = VStr "INCOMING") /\
    (forall ir, ~ (In ir (rows invites_sent) /\
                   In ir (rows invites_received))) /\
    (forall ir, cell "Direction" (snd ir) <> VStr "OUTGOING" ->
                cell "Direction" (snd ir) <> VStr "INCOMING" ->
                ~ In ir (rows invites_sent) /\
                ~ In ir (rows invites_received)).
Proof.
  split; [reflexivity |].
  apply (get_sent_receive_invites_split sample_invites "Direction").
  reflexivity.
Defined.

(** On the sample table the two outputs are the first and the second
    row. *)
Example get_sent_receive_invites_sample :
  get_sent_receive_invites sample_invites "Direction"
  = Return
      ({| columns := ["From"; "Direction"];
          rows := [(0, [("From", VStr "a"); ("Direction", VStr "OUTGOING")])] |},
       {| columns := ["From"; "Direction"];
          rows := [(1, [("From", VStr "b"); ("Direction", VStr "INCOMING")])] |}).
Proof. reflexivity. Qed.

(** C9.  The result of [import_recruiters_contacts] is settled by what the
    reader returns for './connections.csv': two calls whose readers agree
    on that one file give the same result, whatever the two path
    arguments and whatever the readers do on other files. *)
Theorem import_recruiters_contacts_ignores_path
    (read1 read2 : string -> outcome DataFrame) (p1 p2 : string) :
  read1 "./connections.csv" = read2 "./connections.csv" ->
  import_recruiters_contacts read1 p1 = import_recruiters_contacts read2 p2.
Proof.
  intros H. unfold import_recruiters_contacts. now rewrite H.
Qed.

Lemma import_recruiters_contacts_ignores_path_witness :
  read_from [("./connections.csv", sample_connections);
             ("a.csv", sample_invites)] "./connections.csv"
  = read_from [("b.csv", sample_invites);
               ("./connections.csv", sample_connections)] "./connections.csv"
  /\
  import_recruiters_contacts
    (read_from [("./connections.csv", sample_connections);
                ("a.csv", sample_invites)]) "a.csv"
  = import_recruiters_contacts
      (read_from [("b.csv", sample_invites);
                  ("./connections.csv", sample_connections)]) "b.csv".
Proof.
  split; [reflexivity |].
  apply import_recruiters_contacts_ignores_path. reflexivity.
Defined.

(** The path argument names a file of invites; the function still answers
    with the recruiters found in './connections.csv'. *)
Example import_recruiters_contacts_sample :
  import_recruiters_contacts
    (read_from [("./connections.csv", sample_connections);
                ("a.csv", sample_invites)]) "a.csv"
  = Return
      {| columns := ["Name"; "Position"];
         rows := [(0, [("Name", VStr "a"); ("Position", VStr "Recruiter")]);
                  (3, [("Name", VStr "d"); ("Position", VStr "Recruiter")])] |}.
Proof. reflexivity. Qed.

(** ** Derived columns *)

Lemma Qlt_bool_iff (x y : Q) : Qlt_bool x y = true <-> (x < y)%Q.
Proof.
  unfold Qlt_bool. rewrite negb_true_iff. split.
  - intros H. apply Qnot_le_lt. intros Hle.
    apply Qle_bool_iff in Hle. congruence.
  - intros H. destruct (Qle_bool y x) eqn:E; [| reflexivity].
    apply Qle_bool_iff in E. exfalso. now apply (Qlt_not_le x y).
Qed.

Lemma values_add_minutes_hours (cal_df : table CalRow) :
  map base (values (add_minutes_hours cal_df)) = values cal_df.
Proof.
  unfold values, add_minutes_hours. rewrite !map_map. simpl.
  apply map_ext. reflexivity.
Qed.

(** ** The float conversions *)

Module Float64Facts.

Import PrimFloat FloatOps SpecFloat FloatAxioms Float64.
Local Open Scope float_scope.

Lemma series_div_labels (s : table float) (k : float) :
  labels (series_div s k) = labels s.
Proof.
  unfold labels, series_div. rewrite map_map. reflexivity.
Qed.

Lemma series_div_cells (s : table float) (k : float) :
  Forall2 (fun d q => fst q = fst d /\ snd q = snd d / k /\
                      Prim2SF (snd q) = SF64div (Prim2SF (snd d)) (Prim2SF k))
          s (series_div s k).
Proof.
  unfold series_div. induction s as [|[i x] s IH]; simpl; constructor.
  - simpl. repeat split. apply div_spec.
  - exact IH.
Qed.

(** C7, as amended.  For every record, [minutes] is the double that the
    float division of the duration by 60 returns and [hours] the double
    that its division by 3600 returns, under the label of the record;
    [_total_hours] returns the same double as the [hours] column.  Each
    is the IEEE-754 binary64 quotient, that is the exact quotient rounded
    to a double, and need not be the exact quotient. *)
Theorem minutes_and_hours_are_float_quotients (duration : table float)
    (seconds : float) :
  Forall2 (fun d m => fst m = fst d /\ snd m = snd d / 60 /\
                      Prim2SF (snd m)
                        = SF64div (Prim2SF (snd d)) (Prim2SF 60))
          duration (minutes_column duration) /\
  Forall2 (fun d h => fst h = fst d /\ snd h = snd d / 3600 /\
                      Prim2SF (snd h)
                        = SF64div (Prim2SF (snd d)) (Prim2SF 3600))
          duration (hours_column duration) /\
  map snd (hours_column duration)
    = map (fun d => _total_hours (snd d)) duration /\
  _total_hours seconds = seconds / 3600 /\
  Prim2SF (_total_hours seconds)
    = SF64div (Prim2SF seconds) (Prim2SF 3600).
Proof.
  split; [apply series_div_cells |]. split; [apply series_div_cells |].
  split; [| split; [reflexivity | apply div_spec]].
  unfold hours_column, series_div, _total_hours. rewrite map_map.
  reflexivity.
Qed.

(** C7, as stated, fails.  For a duration of one second the hours are not
    one 3600th and the minutes are not one 60th: each is the nearest
    double, and the same goes for [_total_hours]. *)
Lemma conversion_not_exact_counterexample :
  hours_column [(0%Z, 1)] = [(0%Z, _total_hours 1)] /\
  ~ exact_quotient 1 3600 (_total_hours 1) /\
  ~ exact_quotient 1 60 (snd (hd (0%Z, 0) (minutes_column [(0%Z, 1)]))).
Proof.
  split; [reflexivity |]. split.
  - intros (qx & qy & Hx & Hy & H).
    vm_compute in Hx, Hy. injection Hx as <-. injection Hy as <-.
    vm_compute in H. discriminate H.
  - intros (qx & qy & Hx & Hy & H).
    vm_compute in Hx, Hy. injection Hx as <-. injection Hy as <-.
    vm_compute in H. discriminate H.
Qed.

(** The durations of the scenario divide without rounding: half an hour
    is 30 minutes and 0.5 hours, a day 1440 minutes and 24 hours. *)
Example scenario_durations_divide_exactly :
  exact_quotient 1800 60 (1800 / 60) /\ 1800 / 60 = 30 /\
  exact_quotient 1800 3600 (_total_hours 1800) /\
  exact_quotient 86400 60 (86400 / 60) /\ 86400 / 60 = 1440 /\
  exact_quotient 86400 3600 (_total_hours 86400) /\
  _total_hours 86400 = 24.
Proof.
  repeat split;
    try (eexists; eexists; split; [vm_compute; reflexivity |];
         split; [vm_compute; reflexivity | vm_compute; reflexivity]).
Qed.

End Float64Facts.

(** ** The filtering pre-step *)



Lemma filter_step_eq (cal_df : table CalRow) :
  filter_step cal_df
  = add_minutes_hours (filter (fun ir => kept (snd ir)) cal_df).
Proof.
  unfold filter_step, keep_within_day, drop_birthdays, kept.
  induction cal_df as [|[i r] t IH]; simpl; [reflexivity |].
  destruct (str_contains "birthday" (event_name r)); simpl.
  - exact IH.
  - destruct (Qlt_bool (duration r / 3600) 24 &&
              Qlt_bool 0 (duration r / 3600)); simpl; now rewrite IH.
Qed.



(** ** Normalization *)

Lemma loc_set_fresh {R : Type} (i : Z) (r : R) (t : table R) :
  (forall ir, In ir t -> fst ir <> i) ->
  loc_set i r t = (t ++ [(i, r)])%list.
Proof.
  intros H. unfold loc_set.
  destruct (existsb (fun ir => fst ir =? i) t) eqn:E; [| reflexivity].
  apply existsb_exists in E as (ir & Hin & Heq).
  apply Z.eqb_eq in Heq. exfalso. now apply (H ir).
Qed.

Lemma fold_process_event (events : list Event) :
  forall (acc : table CalRow) (n : nat),
    (forall ir, In ir acc -> fst ir < Z.of_nat n) ->
    fold_left process_event events (acc, Z.of_nat n)
    = ((acc ++ combine (map Z.of_nat (seq n (List.length events)))
                       (map event_record events))%list,
       Z.of_nat (n + List.length events)).
Proof.
  induction events as [|event events IH]; intros acc n Hacc; simpl.
  - rewrite app_nil_r, Nat.add_0_r. reflexivity.
  - rewrite loc_set_fresh.
    2: { intros ir Hin. apply Hacc in Hin. lia. }
    replace (Z.of_nat n + 1) with (Z.of_nat (S n)) by lia.
    rewrite IH.
    + rewrite <- app_assoc. simpl. f_equal. f_equal. lia.
    + intros ir Hin. apply in_app_or in Hin as [Hin | [<- | []]].
      * apply Hacc in Hin. lia.
      * simpl. lia.
Qed.

(** The loop of [_process_calendar] writes one record per event, in the
    order of the events, under the labels 0, 1, 2, ... *)
Lemma process_events_eq (events : list Event) :
  process_events events = range_index (map event_record events).
Proof.
  assert (E := fold_process_event events [] 0).
  apply (f_equal fst) in E; [| intros ir []].
  unfold process_events, range_index.
  etransitivity; [exact E |].
  simpl. now rewrite length_map.
Qed.

Lemma nth_error_labelled {R : Type} (l : list R) :
  forall (start i : nat) (x : R),
    nth_error l i = Some x ->
    nth_error (combine (map Z.of_nat (seq start (List.length l))) l) i
    = Some (Z.of_nat (start + i), x).
Proof.
  induction l as [|y l IH]; intros start i x H.
  - destruct i; discriminate.
  - destruct i as [|i]; simpl in *.
    + injection H as ->. now rewrite Nat.add_0_r.
    + rewrite (IH (S start) i x H). f_equal. f_equal. lia.
Qed.

Lemma length_range_index {R : Type} (l : list R) :
  List.length (range_index l) = List.length l.
Proof.
  unfold range_index.
  rewrite length_combine, length_map, length_seq. apply Nat.min_id.
Qed.

Lemma total_seconds_negative (td : timedelta) :
  td < 0 -> (total_seconds td < 0)%Q.
Proof.
  intros H. unfold total_seconds, Qlt. simpl. lia.
Qed.

(** C8.  When the file is read and parsed, [_process_calendar] returns one
    record per event; the record of an event whose end precedes its start
    sits at the event's position and holds, as its duration, the seconds
    from start to end as they are, a negative number. *)
Theorem _process_calendar_keeps_negative_duration
    (open_read : string -> outcome string)
    (ics_Calendar : string -> outcome (list Event))
    (calendar_file text : string) (events : list Event)
    (i : nat) (event : Event) :
  open_read calendar_file = Return text ->
  ics_Calendar text = Return events ->
  nth_error events i = Some event ->
  ends_before_start event ->
  exists cal_df r,
    _process_calendar open_read ics_Calendar calendar_file = Return cal_df /\
    List.length cal_df = List.length events /\
    nth_error cal_df i = Some (Z.of_nat i, r) /\
    event_name r = name event /\
    duration r
      = total_seconds (timestamp_us (end_ event) - timestamp_us (begin event))
    /\
    (duration r < 0)%Q.
Proof.
  intros Hread Hparse Hnth Hneg.
  exists (process_events events), (event_record event).
  unfold _process_calendar. rewrite Hread. simpl. rewrite Hparse. simpl.
  rewrite process_events_eq.
  split; [reflexivity |].
  split; [now rewrite length_range_index, length_map |].
  split.
  - unfold range_index.
    rewrite (nth_error_labelled _ 0 i (event_record event)).
    + reflexivity.
    + now rewrite nth_error_map, Hnth.
  - split; [reflexivity |]. split; [reflexivity |].
    simpl. apply total_seconds_negative.
    unfold Event_duration, arrow_sub, ends_before_start in *. lia.
Qed.

Lemma _process_calendar_keeps_negative_duration_witness :
  (fun _ : string => Return "BEGIN:VCALENDAR") "cal.ics"
    = Return "BEGIN:VCALENDAR" /\
  (fun _ : string => Return [forward_event; backwards_event]) "BEGIN:VCALENDAR"
    = Return [forward_event; backwards_event] /\
  nth_error [forward_event; backwards_event] 1 = Some backwards_event /\
  ends_before_start backwards_event /\
  exists cal_df r,
    _process_calendar (fun _ => Return "BEGIN:VCALENDAR")
      (fun _ => Return [forward_event; backwards_event]) "cal.ics"
      = Return cal_df /\
    List.length cal_df = List.length [forward_event; backwards_event] /\
    nth_error cal_df 1 = Some (Z.of_nat 1, r) /\
    event_name r = name backwards_event /\
    duration r
      = total_seconds (timestamp_us (end_ backwards_event)
                       - timestamp_us (begin backwards_event)) /\
    (duration r < 0)%Q.
Proof.
  split; [reflexivity |]. split; [reflexivity |]. split; [reflexivity |].
  assert (H : ends_before_start backwards_event)
    by (unfold ends_before_start; simpl; lia).
  split; [exact H |].
  apply (_process_calendar_keeps_negative_duration
           (fun _ => Return "BEGIN:VCALENDAR")
           (fun _ => Return [forward_event; backwards_event])
           "cal.ics" "BEGIN:VCALENDAR" [forward_event; backwards_event]
           1 backwards_event); reflexivity.
Defined.

(** The backwards event of the sample, an hour long the wrong way round,
    is stored with a duration of -3600 seconds. *)
Example process_events_sample :
  map (fun ir => (fst ir, event_name (snd ir), duration (snd ir)))
      (process_events [forward_event; backwards_event])
  = [(0, "Standup", Qmake 3600000000 1000000);
     (1, "Review", Qmake (-3600000000) 1000000)].
Proof. reflexivity. Qed.

(** ** Sums *)

Lemma sum_Z_map_add {A : Type} (f g : A -> Z) (l : list A) :
  sum_Z (map (fun a => f a + g a) l) = sum_Z (map f l) + sum_Z (map g l).
Proof.
  induction l as [|a l IH]; simpl; [reflexivity | rewrite IH; lia].
Qed.

Lemma sum_Z_map_zero {A : Type} (l : list A) :
  sum_Z (map (fun _ => 0) l) = 0.
Proof.
  induction l as [|a l IH]; simpl; [reflexivity | exact IH].
Qed.

Lemma sum_Z_ones {A : Type} (w : A -> Z) (l : list A) :
  Forall (fun a => w a = 1) l ->
  sum_Z (map w l) = Z.of_nat (List.length l).
Proof.
  induction 1 as [|a l Ha _ IH]; simpl List.length; simpl sum_Z.
  - reflexivity.
  - change (sum_Z (w a :: map w l)) with (w a + sum_Z (map w l)). lia.
Qed.

Lemma sum_Q_const {A : Type} (w : A -> Q) (c : Q) (l : list A) :
  Forall (fun a => (w a == c)%Q) l ->
  (sum_Q (map w l) == inject_Z (Z.of_nat (List.length l)) * c)%Q.
Proof.
  induction 1 as [|a l Ha _ IH].
  - simpl. ring.
  - change (sum_Q (map w (a :: l))) with (w a + sum_Q (map w l))%Q.
    rewrite IH, Ha. simpl List.length. rewrite Nat2Z.inj_succ.
    unfold Z.succ. rewrite inject_Z_plus. ring.
Qed.

(** ** Group-by *)

Lemma values_range_index {R : Type} (l : list R) :
  values (range_index l) = l.
Proof.
  unfold values, range_index. generalize 0%nat.
  induction l as [|x l IH]; intros n; simpl; [reflexivity | now rewrite IH].
Qed.

Lemma Permutation_filter_keep {A : Type} (f : A -> bool) (l l' : list A) :
  Permutation l l' -> Permutation (filter f l) (filter f l').
Proof.
  induction 1 as [| x l l' _ IH | x y l | l l' l'' _ IH1 _ IH2]; simpl.
  - constructor.
  - destruct (f x); [now constructor | exact IH].
  - destruct (f x), (f y); try apply Permutation_refl. apply perm_swap.
  - now transitivity (filter f l').
Qed.

Section GroupByFacts.

Context {R K : Type}.
Variable key : R -> K.
Variable K_eq_dec : forall a b : K, {a = b} + {a <> b}.
Variable K_leb : K -> K -> bool.

Lemma insert_sorted_perm (k : K) (ks : list K) :
  Permutation (insert_sorted K_leb k ks) (k :: ks).
Proof.
  induction ks as [|k' ks IH]; simpl.
  - apply Permutation_refl.
  - destruct (K_leb k k').
    + apply Permutation_refl.
    + apply perm_trans with (k' :: k :: ks).
      * now constructor.
      * apply perm_swap.
Qed.

Lemma sort_keys_perm (ks : list K) : Permutation (sort_keys K_leb ks) ks.
Proof.
  induction ks as [|k ks IH]; simpl.
  - constructor.
  - apply perm_trans with (k :: sort_keys K_leb ks).
    + apply insert_sorted_perm.
    + now constructor.
Qed.

Lemma group_keys_NoDup (t : table R) :
  NoDup (group_keys key K_eq_dec K_leb t).
Proof.
  unfold group_keys.
  eapply Permutation_NoDup.
  - apply Permutation_sym, sort_keys_perm.
  - apply NoDup_nodup.
Qed.

Lemma group_keys_In (t : table R) (k : K) :
  In k (group_keys key K_eq_dec K_leb t) <-> In k (map key (values t)).
Proof.
  unfold group_keys. split; intros H.
  - apply (Permutation_in _ (sort_keys_perm _)) in H.
    now apply nodup_In in H.
  - apply (Permutation_in _ (Permutation_sym (sort_keys_perm _))).
    now apply nodup_In.
Qed.

Lemma sum_Z_indicator_out (k0 : K) (w : Z) (ks : list K) :
  ~ In k0 ks ->
  sum_Z (map (fun k => if K_eq_dec k0 k then w else 0) ks) = 0.
Proof.
  induction ks as [|k ks IH]; simpl; intros H; [reflexivity |].
  destruct (K_eq_dec k0 k) as [-> | _].
  - exfalso. apply H. now left.
  - rewrite IH; [reflexivity | tauto].
Qed.

Lemma sum_Z_indicator (k0 : K) (w : Z) (ks : list K) :
  NoDup ks -> In k0 ks ->
  sum_Z (map (fun k => if K_eq_dec k0 k then w else 0) ks) = w.
Proof.
  induction 1 as [|k ks Hk Hnd IH]; simpl; intros Hin; [contradiction |].
  destruct (K_eq_dec k0 k) as [-> | Hne].
  - rewrite sum_Z_indicator_out by exact Hk. lia.
  - rewrite IH; [reflexivity |]. destruct Hin; [congruence | assumption].
Qed.

(** Summing a column group by group gives the sum of the column, as soon
    as the keys are distinct and cover the rows. *)
Lemma sum_over_groups (w : R -> Z) (ks : list K) (l : list R) :
  NoDup ks ->
  (forall r, In r l -> In (key r) ks) ->
  sum_Z (map (fun k =>
                sum_Z (map w (filter (fun r => if K_eq_dec (key r) k
                                               then true else false) l)))
             ks)
  = sum_Z (map w l).
Proof.
  intros Hnd. induction l as [|r l IH]; intros Hcover.
  - simpl. apply sum_Z_map_zero.
  - simpl sum_Z at 3.
    change (sum_Z (w r :: map w l)) with (w r + sum_Z (map w l)).
    rewrite <- IH by (intros r' Hr'; apply Hcover; now right).
    rewrite <- (sum_Z_indicator (key r) (w r) ks Hnd)
      by (apply Hcover; now left).
    rewrite <- sum_Z_map_add.
    f_equal. apply map_ext. intros k. simpl.
    destruct (K_eq_dec (key r) k); reflexivity.
Qed.

Lemma groupby_sum_total (w : R -> Z) (t : table R) :
  sum_Z (map (fun kg => sum_Z (map w (snd kg)))
             (groupby key K_eq_dec K_leb t))
  = sum_Z (map w (values t)).
Proof.
  unfold groupby. rewrite map_map. simpl. unfold group.
  apply sum_over_groups.
  - apply group_keys_NoDup.
  - intros r Hr. apply group_keys_In. now apply in_map.
Qed.

Lemma nodup_all_equal (k : K) (l : list K) :
  l <> [] -> Forall (eq k) l -> nodup K_eq_dec l = [k].
Proof.
  induction l as [|x l IH]; intros Hne Hall; [congruence |].
  inversion Hall as [|? ? Hx Hl]; subst. simpl.
  destruct l as [|x' l'].
  - simpl. reflexivity.
  - destruct (in_dec K_eq_dec x (x' :: l')) as [_ | Hout].
    + apply IH; [discriminate | exact Hl].
    + exfalso. apply Hout. inversion Hl; subst. now left.
Qed.

Lemma filter_same_key (k : K) (l : list R) :
  Forall (fun r => key r = k) l ->
  filter (fun r => if K_eq_dec (key r) k then true else false) l = l.
Proof.
  induction 1 as [|r l Hr _ IH]; simpl; [reflexivity |].
  destruct (K_eq_dec (key r) k); [| contradiction]. now rewrite IH.
Qed.

(** A table whose rows all carry the key [k] forms a single group. *)
Lemma groupby_single (k : K) (t : table R) :
  values t <> [] ->
  Forall (fun r => key r = k) (values t) ->
  groupby key K_eq_dec K_leb t = [(k, values t)].
Proof.
  intros Hne Hall. unfold groupby, group_keys.
  rewrite (nodup_all_equal k).
  - simpl. unfold group. now rewrite filter_same_key.
  - destruct (values t); [congruence | discriminate].
  - apply Forall_map. eapply Forall_impl; [| exact Hall].
    intros r Hr. now symmetry.
Qed.

End GroupByFacts.

(** ** Aggregates of get_plots *)

Lemma values_set_count (t : table CalRowT) :
  values (set_count t)
  = map (fun r => {| timed := r; count := 1 |}) (values t).
Proof.
  unfold values, set_count. rewrite !map_map. reflexivity.
Qed.

Lemma count_column_ones (t : table CalRowT) :
  Forall (fun r => count r = 1) (values (set_count t)).
Proof.
  rewrite values_set_count. apply Forall_map, Forall_forall.
  intros r _. reflexivity.
Qed.

Lemma length_values {R : Type} (t : table R) :
  List.length (values t) = List.length t.
Proof. apply length_map. Qed.

Lemma sum_count_column (t : table CalRowT) :
  sum_Z (map count (values (set_count t))) = Z.of_nat (List.length t).
Proof.
  rewrite (sum_Z_ones count) by apply count_column_ones.
  rewrite length_values. unfold set_count. now rewrite length_map.
Qed.

(** C6.  For every table of filtered records, once [count] is set to 1
    and the table is grouped by event name, the counts of the groups add
    up to the number of records; the same holds for the groupings by
    month and by year. *)
Theorem group_counts_add_up (t : table CalRowT) :
  sum_Z (map ByName.count (values (cal_min (set_count t))))
    = Z.of_nat (List.length t) /\
  sum_Z (map MonthCount.count (values (cal_month (set_count t))))
    = Z.of_nat (List.length t) /\
  sum_Z (map YearCount.count (values (cal_year_time (set_count t))))
    = Z.of_nat (List.length t).
Proof.
  unfold cal_min, cal_month, cal_year_time, by_event_name, by_month, by_year.
  rewrite !values_range_index, !map_map. simpl.
  rewrite !(groupby_sum_total _ _ _ count).
  rewrite sum_count_column. auto.
Qed.

(** In [get_plots] itself: the counts of the by-name table add up to the
    number of records that pass the filtering pre-step. *)
Corollary get_plots_counts_add_up (cal_df : table CalRow) :
  sum_Z (map ByName.count (values (get_plots_cal_min cal_df)))
  = Z.of_nat (List.length (filter_step cal_df)).
Proof.
  unfold get_plots_cal_min, counted. apply group_counts_add_up.
Qed.

Lemma values_counted (cal_df : table CalRow) :
  values (counted cal_df)
  = map (fun r => {| timed := {| base := r;
                                 minutes := (duration r / 60)%Q;
                                 hours := (duration r / 3600)%Q |};
                     count := 1 |})
        (filter kept (values cal_df)).
Proof.
  unfold counted. rewrite values_set_count, filter_step_eq.
  unfold values, add_minutes_hours. rewrite !map_map. simpl.
  rewrite filter_map_swap, map_map. reflexivity.
Qed.

(** A "Birthday" is not caught by the name filter, which looks for
    'birthday' in lower case; the one of the scenario goes because it
    lasts 24 hours.  A shorter one stays. *)
Example birthday_capital_B :
  str_contains "birthday" "Birthday" = false /\
  kept (birthday 1 5 2017 0) = false /\
  kept {| day := 1; month := 5; year := 2017; hour := 18;
          event_name := "Birthday"; duration := 7200 |} = true /\
  kept {| day := 1; month := 5; year := 2017; hour := 18;
          event_name := "Anna's birthday"; duration := 7200 |} = false.
Proof. repeat split; reflexivity. Qed.

(** C4.  Take three "Standup" events of 30 minutes and one "Birthday"
    event of 1440 minutes, all in the same month, in any order and under
    any labels.  The by-name table of [get_plots] is the single row
    (Standup, 3, 90 minutes); there is no "Birthday" row. *)
Theorem standup_birthday_scenario (cal_df : table CalRow)
    (m y d1 h1 d2 h2 d3 h3 d4 h4 : Z) :
  Permutation (values cal_df)
    [standup d1 m y h1; standup d2 m y h2; standup d3 m y h3;
     birthday d4 m y h4] ->
  exists total,
    get_plots_cal_min cal_df
      = [(0, {| ByName.event_name := "Standup";
                ByName.count := 3;
                ByName.minutes := total |})] /\
    (total == 90)%Q /\
    ~ In "Birthday"
         (map ByName.event_name (values (get_plots_cal_min cal_df))).
Proof.
  intros Hperm.
  set (mk := fun r => {| timed := {| base := r;
                                     minutes := (duration r / 60)%Q;
                                     hours := (duration r / 3600)%Q |};
                         count := 1 |}).
  assert (Hv : Permutation (values (counted cal_df))
                 (map mk [standup d1 m y h1; standup d2 m y h2;
                          standup d3 m y h3])).
  { rewrite values_counted. apply Permutation_map.
    apply (Permutation_filter_keep kept) in Hperm. exact Hperm. }
  assert (Hlen : List.length (values (counted cal_df)) = 3%nat).
  { apply Permutation_length in Hv. exact Hv. }
  assert (Hall : Forall (fun r => event_name (base (timed r)) = "Standup" /\
                                  count r = 1 /\
                                  (minutes (timed r) == 30)%Q)
                        (values (counted cal_df))).
  { apply Forall_forall. intros r Hr.
    apply (Permutation_in _ Hv) in Hr. simpl in Hr.
    destruct Hr as [<- | [<- | [<- | []]]]; simpl; repeat split;
      reflexivity. }
  assert (Hone : get_plots_cal_min cal_df
                 = [(0, {| ByName.event_name := "Standup";
                           ByName.count := 3;
                           ByName.minutes :=
                             sum_Q (map (fun r => minutes (timed r))
                                        (values (counted cal_df))) |})]).
  { unfold get_plots_cal_min, cal_min, by_event_name.
    rewrite (groupby_single _ _ _ "Standup").
    - simpl. rewrite (sum_Z_ones count), Hlen; [reflexivity |].
      eapply Forall_impl; [| exact Hall]. intros r H. apply H.
    - intros E. rewrite E in Hlen. discriminate.
    - eapply Forall_impl; [| exact Hall]. intros r H. apply H. }
  eexists. split; [exact Hone |]. split.
  - rewrite (sum_Q_const _ 30).
    + rewrite Hlen. reflexivity.
    + eapply Forall_impl; [| exact Hall]. intros r H. apply H.
  - rewrite Hone. simpl. intros [H | []]. discriminate.
Qed.

Lemma standup_birthday_scenario_witness :
  Permutation
    (values [(0, standup 2 5 2017 9); (1, birthday 3 5 2017 0);
             (2, standup 3 5 2017 9); (3, standup 4 5 2017 9)])
    [standup 2 5 2017 9; standup 3 5 2017 9; standup 4 5 2017 9;
     birthday 3 5 2017 0] /\
  exists total,
    get_plots_cal_min
      [(0, standup 2 5 2017 9); (1, birthday 3 5 2017 0);
       (2, standup 3 5 2017 9); (3, standup 4 5 2017 9)]
      = [(0, {| ByName.event_name := "Standup";
                ByName.count := 3;
                ByName.minutes := total |})] /\
    (total == 90)%Q /\
    ~ In "Birthday"
         (map ByName.event_name
            (values (get_plots_cal_min
                       [(0, standup 2 5 2017 9); (1, birthday 3 5 2017 0);
                        (2, standup 3 5 2017 9); (3, standup 4 5 2017 9)]))).
Proof.
  assert (P : Permutation
                (values [(0, standup 2 5 2017 9); (1, birthday 3 5 2017 0);
                         (2, standup 3 5 2017 9); (3, standup 4 5 2017 9)])
                [standup 2 5 2017 9; standup 3 5 2017 9; standup 4 5 2017 9;
                 birthday 3 5 2017 0]).
  { simpl. apply perm_skip.
    apply perm_trans with [standup 3 5 2017 9; birthday 3 5 2017 0;
                           standup 4 5 2017 9].
    - apply perm_swap.
    - apply perm_skip. apply perm_swap. }
  split; [exact P |].
  apply (standup_birthday_scenario _ 5 2017 2 9 3 9 4 9 3 0). exact P.
Defined.

(** * Further properties of the two modules *)

(** ** Grouping rules: lists of rules and catch-all patterns *)

Lemma _group_app_hit (s : string) (g1 g2 : list (Re.pattern * string)) :
  existsb (fun g => Re.match_ (fst g) s) g1 = true ->
  _group s (g1 ++ g2)%list = _group s g1.
Proof.
  induction g1 as [|[p r] g1 IH]; simpl; [discriminate |].
  destruct (Re.match_ p s); simpl; [reflexivity | exact IH].
Qed.

Lemma _group_app_miss (s : string) (g1 g2 : list (Re.pattern * string)) :
  existsb (fun g => Re.match_ (fst g) s) g1 = false ->
  _group s (g1 ++ g2)%list = _group s g2.
Proof.
  induction g1 as [|[p r] g1 IH]; simpl; [reflexivity |].
  destruct (Re.match_ p s); simpl; [discriminate | exact IH].
Qed.

(** X1.  Rules appended to a list matter only for the names the list
    leaves alone: when some rule of the first list matches the beginning
    of the name the appended rules are never consulted, and when none
    does the answer is that of the appended rules alone. *)
Theorem _group_appended_rules (s : string)
    (g1 g2 : list (Re.pattern * string)) :
  (Exists (fun g => Re.matches_prefix (fst g) s) g1 ->
   _group s (g1 ++ g2)%list = _group s g1) /\
  (Forall (fun g => ~ Re.matches_prefix (fst g) s) g1 ->
   _group s (g1 ++ g2)%list = _group s g2).
Proof.
  split; intros H.
  - apply _group_app_hit. apply existsb_exists.
    apply Exists_exists in H as (g & Hin & Hm).
    exists g. split; [exact Hin | now apply match_prefix].
  - apply _group_app_miss.
    destruct (existsb (fun g => Re.match_ (fst g) s) g1) eqn:E;
      [| reflexivity].
    apply existsb_exists in E as (g & Hin & Hm).
    rewrite Forall_forall in H. exfalso.
    apply (H g Hin). now apply match_prefix.
Qed.

(** X2.  Among the patterns of the regular fragment (literal characters,
    dot, concatenation, alternation and star, with no anchor, boundary or
    lookaround), a rule whose pattern accepts the empty string, such as
    the empty pattern or a starred one, takes every name: [_group] answers
    with its replacement whatever the name and whatever rules follow
    it. *)
Theorem _group_catch_all_rule (pattern : Re.pattern) (replacement : string)
    (rest : list (Re.pattern * string)) (s : string) :
  Re.lang pattern "" ->
  _group s ((pattern, replacement) :: rest) = replacement.
Proof.
  intros H. simpl.
  assert (E : Re.match_ pattern s = true).
  { apply match_prefix. exists "", s. split; [reflexivity | exact H]. }
  now rewrite E.
Qed.

Lemma _group_catch_all_rule_witness :
  Re.lang (Re.Star (Re.Chr "x")) "" /\
  _group "Lunch"
    [(Re.Star (Re.Chr "x"), "Other"); (Re.literal "Lunch", "Break")]
  = "Other".
Proof.
  split; [constructor |].
  apply (_group_catch_all_rule (Re.Star (Re.Chr "x")) "Other"
           [(Re.literal "Lunch", "Break")] "Lunch").
  constructor.
Defined.

(** ** Date arguments: what comes out of [_valid_date] *)

(** X3.  [_valid_date] never lets a [TypeError] out; it returns a date
    exactly when the parser returns one, and then the same date; and a
    [TypeError] of the parser becomes the message "Not a valid date"
    around the argument as typed. *)
Theorem _valid_date_outcomes (arrow_get : string -> outcome Arrow)
    (s : string) :
  (forall msg, _valid_date arrow_get s <> Raise (TypeError msg)) /\
  (forall d, _valid_date arrow_get s = Return d <-> arrow_get s = Return d) /\
  (forall msg, arrow_get s = Raise (TypeError msg) ->
     _valid_date arrow_get s
       = Raise (ArgumentTypeError ("Not a valid date: '" ++ s ++ "'."))).
Proof.
  unfold _valid_date. destruct (arrow_get s) as [d | e].
  - repeat split; try discriminate; auto.
  - destruct e; repeat split; try discriminate; intros; discriminate.
Qed.

(** ** Charts: what [plot] looks at *)

Lemma firstn_5_twice {A : Type} (l : list A) :
  firstn 5 (firstn 5 l) = firstn 5 l.
Proof. rewrite firstn_firstn. reflexivity. Qed.

(** X4.  [plot] draws the first five entries and no more: cutting the
    three sequences down to their first five entries beforehand changes
    nothing, whatever the backend does. *)
Theorem plot_first_five_only {Fig : Type} (plt : Pyplot Fig)
    (x y z : list value) (xlabel ylabel title : string) (fig_size : Z * Z)
    (fig_color flag : string) :
  plot plt x y z xlabel ylabel title fig_size fig_color flag
  = plot plt (firstn 5 x) (firstn 5 y) (firstn 5 z) xlabel ylabel title
      fig_size fig_color flag.
Proof.
  unfold plot, plot_try. now rewrite !firstn_5_twice.
Qed.

(** X5.  Unless the flag is '-T' or '-L', [plot] sets no tick labels: its
    result does not depend on [x]. *)
Theorem plot_ignores_labels_without_flag {Fig : Type} (plt : Pyplot Fig)
    (x x' y z : list value) (xlabel ylabel title : string)
    (fig_size : Z * Z) (fig_color flag : string) :
  flag <> "-T" -> flag <> "-L" ->
  plot plt x y z xlabel ylabel title fig_size fig_color flag
  = plot plt x' y z xlabel ylabel title fig_size fig_color flag.
Proof.
  intros HT HL. unfold plot, plot_try.
  apply String.eqb_neq in HT, HL. rewrite HT, HL. reflexivity.
Qed.

Lemma plot_ignores_labels_without_flag_witness :
  "-M" <> "-T" /\ "-M" <> "-L" /\
  plot tracing_plt [VStr "a"] [VInt 1] [VInt 0] "x" "y" "t" (15, 5)
       "#db3236" "-M"
  = plot tracing_plt [VStr "b"; VStr "c"] [VInt 1] [VInt 0] "x" "y" "t"
      (15, 5) "#db3236" "-M".
Proof.
  assert (HT : "-M" <> "-T") by discriminate.
  assert (HL : "-M" <> "-L") by discriminate.
  split; [exact HT |]. split; [exact HL |].
  apply (plot_ignores_labels_without_flag tracing_plt); assumption.
Defined.

(** On the backend that keeps its calls: without the flag no tick call is
    made, with it the labels are handed over and two sets of labels give
    two figures. *)
Example plot_flag_on_tracing_backend :
  plot tracing_plt [VStr "a"] [VInt 1] [VInt 0] "x" "y" "t" (15, 5)
       "#db3236" "-M"
  = Return (Chart [Bar [VInt 0] [VInt 1] "#db3236"; Title "t"; XLabel "x";
                   YLabel "y"; Size (15, 5)]) /\
  plot tracing_plt [VStr "a"] [VInt 1] [VInt 0] "x" "y" "t" (15, 5)
       "#db3236" "-T"
  = Return (Chart [Bar [VInt 0] [VInt 1] "#db3236"; Title "t"; XLabel "x";
                   YLabel "y"; XTicks [VInt 0] [VStr "a"]; Size (15, 5)]) /\
  plot tracing_plt [VStr "a"] [VInt 1] [VInt 0] "x" "y" "t" (15, 5)
       "#db3236" "-T"
  <> plot tracing_plt [VStr "b"; VStr "c"] [VInt 1] [VInt 0] "x" "y" "t"
       (15, 5) "#db3236" "-T".
Proof. repeat split. discriminate. Qed.

(** ** Charts on a backend that does not fail *)

Ltac quiet_steps Hb Ht Hx Hy Hk Hz :=
  repeat
    (cbn [bind];
     match goal with
     | |- context [ax_bar ?p ?a ?b ?c ?f] =>
         let E := fresh "E" in destruct (Hb a b c f) as [? E]; rewrite E
     | |- context [ax_set_title ?p ?a ?f] =>
         let E := fresh "E" in destruct (Ht a f) as [? E]; rewrite E
     | |- context [ax_set_xlabel ?p ?a ?f] =>
         let E := fresh "E" in destruct (Hx a f) as [? E]; rewrite E
     | |- context [ax_set_ylabel ?p ?a ?f] =>
         let E := fresh "E" in destruct (Hy a f) as [? E]; rewrite E
     | |- context [xticks ?p ?a ?b ?f] =>
         let E := fresh "E" in destruct (Hk a b f) as [? E]; rewrite E
     | |- context [set_size_inches ?p ?a ?f] =>
         let E := fresh "E" in destruct (Hz a f) as [? E]; rewrite E
     end);
  cbn [bind].

Lemma recording_plt_quiet : quiet recording_plt.
Proof.
  unfold quiet, recording_plt; simpl. repeat split; intros; eexists;
    reflexivity.
Qed.

Lemma plot_data_quiet_returns {Fig : Type} (plt : Pyplot Fig)
    (x : DataFrame) (y : list value)
    (x_column y_column xlabel ylabel title : string)
    (fig_size : Z * Z) (fig_color : string) :
  quiet plt ->
  has_column x x_column = true ->
  has_column x y_column = true ->
  exists fig,
    plot_data plt x y x_column y_column xlabel ylabel title fig_size
      fig_color = Return fig.
Proof.
  intros (Hs & Hb & Ht & Hx & Hy & Hk & Hz) Hxc Hyc.
  unfold plot_data. destruct Hs as [fig0 E0]. rewrite E0.
  rewrite (getitem_present _ _ Hxc), (getitem_present _ _ Hyc).
  quiet_steps Hb Ht Hx Hy Hk Hz.
  eexists. reflexivity.
Qed.

Lemma plot_data_subplots_then_columns {Fig : Type} (plt : Pyplot Fig)
    (x : DataFrame) (y : list value)
    (x_column y_column xlabel ylabel title : string)
    (fig_size : Z * Z) (fig_color : string) (fig0 : Fig) :
  subplots plt = Return fig0 ->
  (has_column x x_column = false ->
   plot_data plt x y x_column y_column xlabel ylabel title fig_size
     fig_color = Raise (KeyError x_column)) /\
  (has_column x x_column = true -> has_column x y_column = false ->
   plot_data plt x y x_column y_column xlabel ylabel title fig_size
     fig_color = Raise (KeyError y_column)).
Proof.
  intros E0. unfold plot_data. rewrite E0. split.
  - intros Hxc. now rewrite (getitem_missing _ _ Hxc).
  - intros Hxc Hyc.
    now rewrite (getitem_present _ _ Hxc), (getitem_missing _ _ Hyc).
Qed.

(** X6.  On a backend that does not fail, [plot_data] returns a figure
    exactly when the table has both the x column and the y column;
    otherwise it raises the [KeyError] of the first one missing, the x
    column before the y column. *)
Theorem plot_data_needs_both_columns {Fig : Type} (plt : Pyplot Fig)
    (x : DataFrame) (y : list value)
    (x_column y_column xlabel ylabel title : string)
    (fig_size : Z * Z) (fig_color : string) :
  quiet plt ->
  ((exists fig,
       plot_data plt x y x_column y_column xlabel ylabel title fig_size
         fig_color = Return fig)
   <-> has_column x x_column = true /\ has_column x y_column = true) /\
  (has_column x x_column = false ->
   plot_data plt x y x_column y_column xlabel ylabel title fig_size
     fig_color = Raise (KeyError x_column)) /\
  (has_column x x_column = true -> has_column x y_column = false ->
   plot_data plt x y x_column y_column xlabel ylabel title fig_size
     fig_color = Raise (KeyError y_column)).
Proof.
  intros Hq. pose proof Hq as ([fig0 E0] & _).
  destruct (plot_data_subplots_then_columns plt x y x_column y_column
              xlabel ylabel title fig_size fig_color fig0 E0) as [Hx Hy].
  split; [| split; assumption].
  split.
  - intros [fig E].
    destruct (has_column x x_column) eqn:Hxc.
    + destruct (has_column x y_column) eqn:Hyc; [auto |].
      rewrite Hy in E by reflexivity. discriminate.
    + rewrite Hx in E by reflexivity. discriminate.
  - intros [Hxc Hyc]. now apply plot_data_quiet_returns.
Qed.

Lemma plot_data_needs_both_columns_witness :
  quiet recording_plt /\
  ((exists fig,
       plot_data recording_plt sample_invites months "From" "Weight"
         "x" "y" "t" (15, 5) "#db3236" = Return fig)
   <-> has_column sample_invites "From" = true /\
       has_column sample_invites "Weight" = true) /\
  (has_column sample_invites "From" = false ->
   plot_data recording_plt sample_invites months "From" "Weight"
     "x" "y" "t" (15, 5) "#db3236" = Raise (KeyError "From")) /\
  (has_column sample_invites "From" = true ->
   has_column sample_invites "Weight" = false ->
   plot_data recording_plt sample_invites months "From" "Weight"
     "x" "y" "t" (15, 5) "#db3236" = Raise (KeyError "Weight")).
Proof.
  split; [exact recording_plt_quiet |].
  apply (plot_data_needs_both_columns recording_plt).
  exact recording_plt_quiet.
Defined.



(** With a sort that answers the table of an empty calendar with a
    [KeyError], [get_plots] ends on that error; with one event it draws
    its three charts. *)
Example get_plots_empty_and_one_event :
  get_plots recording_plt sort_by_minutes_sample []
    = Raise (KeyError "minutes") /\
  exists fig1 fig2 fig3,
    get_plots recording_plt sort_by_minutes_sample [(0, standup 2 5 2017 9)]
    = Return [fig1; fig2; fig3].
Proof.
  split; [reflexivity |]. do 3 eexists. reflexivity.
Qed.

(** X8.  [plot] of linkedin.py, on a backend that does not fail, goes
    through exactly when the table has both columns; a missing column
    raises its [KeyError], the x column first.  Nothing catches it. *)
Theorem linkedin_plot_needs_both_columns {Fig : Type} (plt : Pyplot Fig)
    (df : DataFrame) (x y xlabel ylabel title : string)
    (fig_size : Z * Z) (fig_color : string) :
  quiet plt ->
  (Linkedin.plot plt df x y xlabel ylabel title fig_size fig_color
     = Return tt
   <-> has_column df x = true /\ has_column df y = true) /\
  (has_column df x = false ->
   Linkedin.plot plt df x y xlabel ylabel title fig_size fig_color
     = Raise (KeyError x)) /\
  (has_column df x = true -> has_column df y = false ->
   Linkedin.plot plt df x y xlabel ylabel title fig_size fig_color
     = Raise (KeyError y)).
Proof.
  intros (Hs & Hb & Ht & Hx & Hy & Hk & Hz).
  destruct Hs as [fig0 E0]. unfold Linkedin.plot. rewrite E0. cbn [bind].
  destruct (has_column df x) eqn:Hxc.
  - rewrite (getitem_present _ _ Hxc). cbn [bind].
    destruct (has_column df y) eqn:Hyc.
    + rewrite (getitem_present _ _ Hyc).
      quiet_steps Hb Ht Hx Hy Hk Hz.
      repeat split; auto; discriminate.
    + rewrite (getitem_missing _ _ Hyc). cbn [bind].
      repeat split; auto; try discriminate.
      intros [_ H]; discriminate.
  - rewrite (getitem_missing _ _ Hxc). cbn [bind].
    repeat split; auto; try discriminate.
    intros [H _]; discriminate.
Qed.

Lemma linkedin_plot_needs_both_columns_witness :
  quiet recording_plt /\
  (Linkedin.plot recording_plt sample_invites "From" "Direction" "x" "y" "t"
     (15, 5) "#db3236" = Return tt
   <-> has_column sample_invites "From" = true /\
       has_column sample_invites "Direction" = true) /\
  (has_column sample_invites "From" = false ->
   Linkedin.plot recording_plt sample_invites "From" "Direction" "x" "y" "t"
     (15, 5) "#db3236" = Raise (KeyError "From")) /\
  (has_column sample_invites "From" = true ->
   has_column sample_invites "Direction" = false ->
   Linkedin.plot recording_plt sample_invites "From" "Direction" "x" "y" "t"
     (15, 5) "#db3236" = Raise (KeyError "Direction")).
Proof.
  split; [exact recording_plt_quiet |].
  apply (linkedin_plot_needs_both_columns recording_plt).
  exact recording_plt_quiet.
Defined.

(** ** Normalization: the table as a whole *)

Lemma labels_range_index {R : Type} (l : list R) :
  labels (range_index l) = map Z.of_nat (seq 0 (List.length l)).
Proof.
  unfold labels, range_index. generalize 0%nat.
  induction l as [|x l IH]; intros n; simpl; [reflexivity | now rewrite IH].
Qed.

(** X9.  [_process_calendar] gives a table only when the file is read and
    parsed: an error of either step is raised as it is.  The table then
    has one record per event, in the order of the events, under the labels
    0, 1, 2, ... *)
Theorem _process_calendar_one_record_per_event
    (open_read : string -> outcome string)
    (ics_Calendar : string -> outcome (list Event))
    (calendar_file : string) :
  (forall e, open_read calendar_file = Raise e ->
     _process_calendar open_read ics_Calendar calendar_file = Raise e) /\
  (forall text e,
     open_read calendar_file = Return text ->
     ics_Calendar text = Raise e ->
     _process_calendar open_read ics_Calendar calendar_file = Raise e) /\
  (forall text events,
     open_read calendar_file = Return text ->
     ics_Calendar text = Return events ->
     exists cal_df,
       _process_calendar open_read ics_Calendar calendar_file
         = Return cal_df /\
       values cal_df = map event_record events /\
       labels cal_df = map Z.of_nat (seq 0 (List.length events)) /\
       List.length cal_df = List.length events).
Proof.
  unfold _process_calendar. repeat split.
  - intros e ->. reflexivity.
  - intros text e -> H. cbn [bind]. now rewrite H.
  - intros text events -> H. cbn [bind]. rewrite H. cbn [bind].
    exists (process_events events). rewrite process_events_eq.
    split; [reflexivity |].
    split; [apply values_range_index |].
    split; [now rewrite labels_range_index, length_map |].
    now rewrite length_range_index, length_map.
Qed.

Lemma values_filter {R : Type} (f : R -> bool) (t : table R) :
  values (filter (fun ir => f (snd ir)) t) = filter f (values t).
Proof.
  unfold values. symmetry. apply filter_map_swap.
Qed.

Lemma hours_of_timedelta_positive (td : timedelta) :
  (0 < total_seconds td / 3600)%Q <-> 0 < td.
Proof.
  unfold total_seconds, Qlt, Qdiv, Qmult, Qinv. simpl. lia.
Qed.

Lemma hours_of_timedelta_below_day (td : timedelta) :
  (total_seconds td / 3600 < 24)%Q <-> td < one_day_us.
Proof.
  unfold total_seconds, Qlt, Qdiv, Qmult, Qinv, one_day_us. simpl. lia.
Qed.

Lemma kept_event_record (event : Event) :
  kept (event_record event) = true <->
  ~ Re.matches_somewhere (Re.literal "birthday") (name event) /\
  0 < timestamp_us (end_ event) - timestamp_us (begin event) < one_day_us.
Proof.
  unfold kept, str_contains.
  change (event_name (event_record event)) with (name event).
  change (duration (event_record event))
    with (total_seconds (Event_duration event)).
  rewrite !andb_true_iff, negb_true_iff, !Qlt_bool_iff.
  rewrite hours_of_timedelta_positive, hours_of_timedelta_below_day.
  unfold Event_duration, arrow_sub.
  split.
  - intros (Hn & H24 & H0). split; [| lia].
    intros Hs. apply search_somewhere in Hs. congruence.
  - intros (Hn & H0 & H24). repeat split; try assumption.
    destruct (Re.search (Re.literal "birthday") (name event)) eqn:E;
      [| reflexivity].
    exfalso. apply Hn. now apply search_somewhere.
Qed.

(** X10.  From the calendar to the aggregates: the records [get_plots]
    works on are those of the events that last more than no time and less
    than a day and whose name does not contain 'birthday', in the order
    of the events.  An event that ends before or when it starts, although
    it is kept by [_process_calendar], is counted in no chart. *)
Theorem events_that_reach_the_aggregates (events : list Event) :
  map base (values (filter_step (process_events events)))
    = map event_record
        (filter (fun event => kept (event_record event)) events) /\
  (forall event,
     kept (event_record event) = true <->
     ~ Re.matches_somewhere (Re.literal "birthday") (name event) /\
     0 < timestamp_us (end_ event) - timestamp_us (begin event)
       < one_day_us) /\
  (forall event,
     timestamp_us (end_ event) <= timestamp_us (begin event) ->
     kept (event_record event) = false).
Proof.
  split; [| split].
  - rewrite filter_step_eq, values_add_minutes_hours, values_filter.
    rewrite process_events_eq, values_range_index.
    apply filter_map_swap.
  - apply kept_event_record.
  - intros event Hle.
    destruct (kept (event_record event)) eqn:E; [| reflexivity].
    apply kept_event_record in E. lia.
Qed.

(** The backwards event of the sample is in the table and in no
    aggregate. *)
Example backwards_event_is_dropped_later :
  List.length (process_events [forward_event; backwards_event]) = 2%nat /\
  map (fun r => event_name (base r))
      (values (filter_step (process_events [forward_event; backwards_event])))
  = ["Standup"].
Proof. split; reflexivity. Qed.

(** ** Calendar dates *)

Lemma to_datetime_all {Timestamp : Type}
    (assemble : Z -> Z -> Z -> option Timestamp) (cal_df : table CalRow) :
  Forall (fun ir => assemble (year (snd ir)) (month (snd ir)) (day (snd ir))
                    <> None) cal_df ->
  exists dates,
    to_datetime assemble cal_df = Return dates /\
    labels dates = labels cal_df /\
    map (fun id => Some (snd id)) dates
    = map (fun ir => assemble (year (snd ir)) (month (snd ir))
                       (day (snd ir))) cal_df.
Proof.
  induction 1 as [|[i r] t Hr _ IH]; simpl.
  - exists []. auto.
  - simpl in Hr.
    destruct (assemble (year r) (month r) (day r)) as [d |] eqn:E;
      [| congruence].
    destruct IH as (ds & -> & Hl & Hd). cbn [bind].
    exists ((i, d) :: ds). simpl. unfold labels in *.
    now rewrite Hl, Hd.
Qed.

Lemma to_datetime_some_fails {Timestamp : Type}
    (assemble : Z -> Z -> Z -> option Timestamp) (cal_df : table CalRow) :
  Exists (fun ir => assemble (year (snd ir)) (month (snd ir)) (day (snd ir))
                    = None) cal_df ->
  to_datetime assemble cal_df
  = Raise (ValueError "cannot assemble the datetimes").
Proof.
  induction cal_df as [|[i r] t IH]; intros H; [inversion H |].
  simpl. destruct (assemble (year r) (month r) (day r)) as [d |] eqn:E;
    [| reflexivity].
  inversion H as [? ? Hhd | ? ? Htl]; subst.
  - simpl in Hhd. congruence.
  - now rewrite (IH Htl).
Qed.

(** X11.  [get_cal_dates] answers with one row per row of the calendar
    table, under the same labels and in the same order, each with its
    assembled date and a count of 1, so that the counts add up to the
    number of events; when the day, month and year of some row do not
    make a date, it raises and gives no table. *)
Theorem get_cal_dates_one_row_per_event {Timestamp : Type}
    (assemble : Z -> Z -> Z -> option Timestamp) (cal_df : table CalRow) :
  (Forall (fun ir => assemble (year (snd ir)) (month (snd ir))
                       (day (snd ir)) <> None) cal_df ->
   exists cal_dates,
     get_cal_dates assemble cal_df = Return cal_dates /\
     labels cal_dates = labels cal_df /\
     map (fun ir => Some (CalDates.Date (snd ir))) cal_dates
       = map (fun ir => assemble (year (snd ir)) (month (snd ir))
                          (day (snd ir))) cal_df /\
     Forall (fun ir => CalDates.count (snd ir) = 1) cal_dates /\
     sum_Z (map CalDates.count (values cal_dates))
       = Z.of_nat (List.length cal_df)) /\
  (Exists (fun ir => assemble (year (snd ir)) (month (snd ir))
                       (day (snd ir)) = None) cal_df ->
   raises (get_cal_dates assemble cal_df)).
Proof.
  split; intros H.
  - destruct (to_datetime_all assemble cal_df H) as (ds & E & Hl & Hd).
    unfold get_cal_dates. rewrite E. cbn [bind].
    eexists. split; [reflexivity |].
    assert (Hones : Forall (fun ir : Z * CalDates.agg Timestamp =>
                              CalDates.count (snd ir) = 1)
                      (map (fun id : Z * Timestamp =>
                              (fst id, {| CalDates.Date := snd id;
                                          CalDates.count := 1 |})) ds)).
    { apply Forall_map, Forall_forall. intros id _. reflexivity. }
    split; [| split; [| split; [exact Hones |]]].
    + unfold labels in *. rewrite map_map. simpl. exact Hl.
    + rewrite map_map. simpl. exact Hd.
    + rewrite (sum_Z_ones CalDates.count).
      * unfold values. rewrite !length_map.
        apply (f_equal (@List.length Z)) in Hl. unfold labels in Hl.
        rewrite !length_map in Hl. now rewrite Hl.
      * unfold values. apply Forall_map. exact Hones.
  - unfold get_cal_dates. rewrite (to_datetime_some_fails _ _ H).
    eexists. reflexivity.
Qed.

Example get_cal_dates_sample :
  get_cal_dates sample_dates
    [(0, standup 2 5 2017 9); (4, birthday 3 5 2017 0)]
  = Return [(0, {| CalDates.Date := (2017, 5, 2); CalDates.count := 1 |});
            (4, {| CalDates.Date := (2017, 5, 3); CalDates.count := 1 |})]
  /\
  get_cal_dates sample_dates [(0, standup 31 5 2017 9)]
  = Raise (ValueError "cannot assemble the datetimes").
Proof. split; reflexivity. Qed.

(** ** Aggregates: one row per key, in ascending order *)

Section GroupRows.

Context {R K : Type}.
Variable key : R -> K.
Variable K_eq_dec : forall a b : K, {a = b} + {a <> b}.
Variable K_leb : K -> K -> bool.

Lemma groupby_keys (t : table R) :
  map fst (groupby key K_eq_dec K_leb t) = group_keys key K_eq_dec K_leb t.
Proof.
  unfold groupby. rewrite map_map. simpl. apply map_id.
Qed.

Lemma group_size (w : R -> Z) (k : K) (l : list R) :
  Forall (fun r => w r = 1) l ->
  sum_Z (map w (filter (fun r => if K_eq_dec (key r) k then true else false)
                       l))
  = Z.of_nat (count_occ K_eq_dec (map key l) k).
Proof.
  induction 1 as [|r l Hr _ IH]; [reflexivity |].
  simpl. destruct (K_eq_dec (key r) k); [| exact IH].
  change (sum_Z (map w (r :: ?l))) with (w r + sum_Z (map w l)).
  simpl sum_Z. rewrite IH, Hr. lia.
Qed.

Hypothesis K_leb_total : forall a b, K_leb a b = true \/ K_leb b a = true.

Lemma insert_sorted_Sorted (k : K) (ks : list K) :
  Sorted (fun a b => K_leb a b = true) ks ->
  Sorted (fun a b => K_leb a b = true) (insert_sorted K_leb k ks).
Proof.
  induction 1 as [|k' ks Hs IH Hhd]; simpl.
  - constructor; constructor.
  - destruct (K_leb k k') eqn:E.
    + constructor; [constructor; assumption | constructor; exact E].
    + constructor; [exact IH |].
      assert (E' : K_leb k' k = true).
      { destruct (K_leb_total k k'); congruence. }
      destruct ks as [|k'' ks]; simpl.
      * constructor. exact E'.
      * destruct (K_leb k k''); constructor;
          [exact E' | now inversion Hhd].
Qed.

Lemma sort_keys_Sorted (ks : list K) :
  Sorted (fun a b => K_leb a b = true) (sort_keys K_leb ks).
Proof.
  induction ks as [|k ks IH]; simpl.
  - constructor.
  - now apply insert_sorted_Sorted.
Qed.

End GroupRows.

Lemma Z_leb_total (a b : Z) : (a <=? b) = true \/ (b <=? a) = true.
Proof. destruct (Z.leb_spec a b); [now left | right]. apply Z.leb_le. lia. Qed.

Lemma Sorted_le_NoDup_lt (l : list Z) :
  Sorted (fun a b => (a <=? b) = true) l -> NoDup l -> Sorted Z.lt l.
Proof.
  induction 1 as [|a l Hs IH Hhd]; intros Hnd; constructor.
  - apply IH. now inversion Hnd.
  - inversion Hnd as [|? ? Hout _]; subst.
    destruct Hhd as [|b l Hab]; constructor.
    apply Z.leb_le in Hab.
    assert (a <> b) by (intros ->; apply Hout; now left). lia.
Qed.

Lemma values_cal_min_names (t : table CalRowC) :
  map ByName.event_name (values (cal_min t))
  = group_keys (fun r => event_name (base (timed r))) string_dec String.leb t.
Proof.
  unfold cal_min, by_event_name. rewrite values_range_index, map_map. simpl.
  apply groupby_keys.
Qed.

(** X12.  The by-name table of [get_plots] has one row per distinct event
    name: no name twice, a row for every name that occurs among the
    filtered records and for no other, and in each row the number of
    filtered records of that name, which is at least 1. *)
Theorem cal_min_one_row_per_name (t : table CalRowT) :
  let names := map (fun r => event_name (base r)) (values t) in
  let rows := values (cal_min (set_count t)) in
  NoDup (map ByName.event_name rows) /\
  (forall n, In n (map ByName.event_name rows) <-> In n names) /\
  Forall (fun a =>
            ByName.count a
              = Z.of_nat (count_occ string_dec names (ByName.event_name a)) /\
            1 <= ByName.count a)
         rows.
Proof.
  intros names rows.
  assert (Hnames : map (fun r => event_name (base (timed r)))
                       (values (set_count t)) = names).
  { rewrite values_set_count, map_map. reflexivity. }
  assert (Hin : forall n, In n (map ByName.event_name rows) <-> In n names).
  { intros n. unfold rows. rewrite values_cal_min_names, group_keys_In.
    now rewrite Hnames. }
  split; [| split; [exact Hin |]].
  - unfold rows. rewrite values_cal_min_names. apply group_keys_NoDup.
  - apply Forall_forall. intros a Ha.
    assert (Hc : ByName.count a
                 = Z.of_nat (count_occ string_dec names
                               (ByName.event_name a))).
    { unfold rows, cal_min, by_event_name, groupby in Ha.
      rewrite values_range_index, !map_map in Ha.
      apply in_map_iff in Ha as (k & <- & _). simpl. unfold group.
      rewrite (group_size _ string_dec count).
      - now rewrite Hnames.
      - apply count_column_ones. }
    split; [exact Hc |].
    rewrite Hc.
    assert (In (ByName.event_name a) names)
      by (apply Hin; now apply in_map).
    apply (count_occ_In string_dec) in H. lia.
Qed.

(** X13.  The rows of the aggregates come in ascending order of their
    key: the names of the by-name table in the order of string
    comparison, the months and the years strictly increasing. *)
Theorem aggregates_in_ascending_order (t : table CalRowC) :
  Sorted (fun a b => String.leb a b = true)
         (map ByName.event_name (values (cal_min t))) /\
  Sorted Z.lt (map MonthCount.month (values (cal_month t))) /\
  Sorted Z.lt (map MonthHours.month (values (cal_month_time t))) /\
  Sorted Z.lt (map YearCount.year (values (cal_year_time t))).
Proof.
  split; [| split; [| split]].
  - rewrite values_cal_min_names. unfold group_keys.
    apply sort_keys_Sorted. apply String.leb_total.
  - unfold cal_month, by_month.
    rewrite values_range_index, map_map. simpl.
    rewrite groupby_keys. apply Sorted_le_NoDup_lt.
    + apply sort_keys_Sorted, Z_leb_total.
    + apply group_keys_NoDup.
  - unfold cal_month_time, by_month.
    rewrite values_range_index, map_map. simpl.
    rewrite groupby_keys. apply Sorted_le_NoDup_lt.
    + apply sort_keys_Sorted, Z_leb_total.
    + apply group_keys_NoDup.
  - unfold cal_year_time, by_year.
    rewrite values_range_index, map_map. simpl.
    rewrite groupby_keys. apply Sorted_le_NoDup_lt.
    + apply sort_keys_Sorted, Z_leb_total.
    + apply group_keys_NoDup.
Qed.

(** ** Aggregates: the order of the events does not matter *)

Lemma sum_Z_perm (l l' : list Z) :
  Permutation l l' -> sum_Z l = sum_Z l'.
Proof.
  induction 1; simpl; lia.
Qed.

Lemma Sorted_lt_perm_eq (l : list Z) :
  forall l', Sorted Z.lt l -> Sorted Z.lt l' -> Permutation l l' -> l = l'.
Proof.
  induction l as [|a l IH]; intros l' Hs Hs' Hp.
  - now apply Permutation_nil in Hp.
  - destruct l' as [|b l'].
    + apply Permutation_sym, Permutation_nil in Hp. discriminate.
    + apply Sorted_StronglySorted in Hs;
        [| intros x y z; apply Z.lt_trans].
      apply Sorted_StronglySorted in Hs';
        [| intros x y z; apply Z.lt_trans].
      apply StronglySorted_inv in Hs as [Hs Ha].
      apply StronglySorted_inv in Hs' as [Hs' Hb].
      rewrite Forall_forall in Ha, Hb.
      assert (a = b).
      { assert (Hin : In a (b :: l'))
          by (apply (Permutation_in _ Hp); now left).
        assert (Hin' : In b (a :: l))
          by (apply (Permutation_in _ (Permutation_sym Hp)); now left).
        destruct Hin as [-> | Hin]; [reflexivity |].
        destruct Hin' as [-> | Hin']; [reflexivity |].
        apply Hb in Hin. apply Ha in Hin'. lia. }
      subst b. f_equal. apply IH.
      * now apply StronglySorted_Sorted.
      * now apply StronglySorted_Sorted.
      * now apply Permutation_cons_inv in Hp.
Qed.

Section GroupOrder.

Context {R : Type}.
Variable key : R -> Z.

Lemma group_keys_perm (t t' : table R) :
  Permutation (values t) (values t') ->
  group_keys key Z.eq_dec Z.leb t = group_keys key Z.eq_dec Z.leb t'.
Proof.
  intros Hp. apply Sorted_lt_perm_eq.
  - apply Sorted_le_NoDup_lt; [| apply group_keys_NoDup].
    apply sort_keys_Sorted, Z_leb_total.
  - apply Sorted_le_NoDup_lt; [| apply group_keys_NoDup].
    apply sort_keys_Sorted, Z_leb_total.
  - apply NoDup_Permutation; try apply group_keys_NoDup.
    intros k. rewrite !group_keys_In.
    split; apply Permutation_in; apply Permutation_map;
      [exact Hp | now apply Permutation_sym].
Qed.

Lemma groupby_sum_perm {A : Type} (w : R -> Z) (mk : Z -> Z -> A)
    (t t' : table R) :
  Permutation (values t) (values t') ->
  map (fun kg => mk (fst kg) (sum_Z (map w (snd kg))))
      (groupby key Z.eq_dec Z.leb t)
  = map (fun kg => mk (fst kg) (sum_Z (map w (snd kg))))
        (groupby key Z.eq_dec Z.leb t').
Proof.
  intros Hp. unfold groupby. rewrite !map_map. simpl.
  rewrite (group_keys_perm t t' Hp).
  apply map_ext. intros k. f_equal. unfold group.
  apply sum_Z_perm, Permutation_map, Permutation_filter_keep. exact Hp.
Qed.

End GroupOrder.

(** X15.  The numbers of events per month and per year that [get_plots]
    charts do not depend on the order in which the calendar lists its
    events, nor on the labels of the rows: two tables with the same
    records give the same two tables of counts. *)
Theorem event_counts_ignore_order (cal_df cal_df' : table CalRow) :
  Permutation (values cal_df) (values cal_df') ->
  cal_month (counted cal_df) = cal_month (counted cal_df') /\
  cal_year_time (counted cal_df) = cal_year_time (counted cal_df').
Proof.
  intros Hp.
  assert (Hc : Permutation (values (counted cal_df))
                           (values (counted cal_df'))).
  { rewrite !values_counted.
    apply Permutation_map, Permutation_filter_keep. exact Hp. }
  unfold cal_month, cal_year_time, by_month, by_year. split; f_equal.
  - apply (groupby_sum_perm _ count
             (fun k c => {| MonthCount.month := k; MonthCount.count := c |})).
    exact Hc.
  - apply (groupby_sum_perm _ count
             (fun k c => {| YearCount.year := k; YearCount.count := c |})).
    exact Hc.
Qed.

Lemma event_counts_ignore_order_witness :
  Permutation
    (values [(0, standup 2 5 2017 9); (1, standup 3 6 2017 9)])
    (values [(7, standup 3 6 2017 9); (9, standup 2 5 2017 9)]) /\
  cal_month (counted [(0, standup 2 5 2017 9); (1, standup 3 6 2017 9)])
    = cal_month (counted [(7, standup 3 6 2017 9); (9, standup 2 5 2017 9)])
  /\
  cal_year_time (counted [(0, standup 2 5 2017 9); (1, standup 3 6 2017 9)])
    = cal_year_time
        (counted [(7, standup 3 6 2017 9); (9, standup 2 5 2017 9)]).
Proof.
  assert (P : Permutation
                (values [(0, standup 2 5 2017 9); (1, standup 3 6 2017 9)])
                (values [(7, standup 3 6 2017 9); (9, standup 2 5 2017 9)]))
    by (simpl; apply perm_swap).
  split; [exact P |].
  apply (event_counts_ignore_order _ _ P).
Defined.

(** ** Invites: the three-way split *)

Lemma three_way_split {A : Type} (p q : A -> bool) (l : list A) :
  (forall a, p a = true -> q a = false) ->
  (List.length (filter p l) + List.length (filter q l)
   + List.length (filter (fun a => negb (p a) && negb (q a)) l)
   = List.length l)%nat.
Proof.
  intros Hpq. induction l as [|a l IH]; simpl; [reflexivity |].
  destruct (p a) eqn:Hp.
  - rewrite (Hpq a Hp). simpl. lia.
  - destruct (q a); simpl; lia.
Qed.

(** X16.  [get_sent_receive_invites] raises the [KeyError] of the
    direction column when the table lacks it.  Otherwise every row of the
    table is in the first output, in the second, or in neither because its
    direction is something else, and the three numbers add up to the
    number of rows. *)
Theorem get_sent_receive_invites_accounts_for_all_rows (df : DataFrame)
    (direction_column : string) :
  (has_column df direction_column = false ->
   get_sent_receive_invites df direction_column
     = Raise (KeyError direction_column)) /\
  (has_column df direction_column = true ->
   exists invites_sent invites_received,
     get_sent_receive_invites df direction_column
       = Return (invites_sent, invites_received) /\
     (List.length (rows invites_sent) + List.length (rows invites_received)
      + List.length
          (filter (fun ir => other_direction direction_column (snd ir))
                  (rows df))
      = List.length (rows df))%nat).
Proof.
  unfold get_sent_receive_invites. split; intros Hcol.
  - unfold where_eq. now rewrite (getitem_missing _ _ Hcol).
  - rewrite !(where_eq_present _ _ _ Hcol). cbn [bind].
    eexists. eexists. split; [reflexivity |]. simpl.
    apply (three_way_split
             (fun ir => value_is_str (cell direction_column (snd ir))
                          "OUTGOING")
             (fun ir => value_is_str (cell direction_column (snd ir))
                          "INCOMING")).
    intros ir H. apply value_is_str_true in H. rewrite H. reflexivity.
Qed.

(** ** Contacts: who is a recruiter *)

Lemma prefix_true (w x : string) :
  String.prefix w x = true <-> exists b, x = w ++ b.
Proof.
  revert x. induction w as [|c w IH]; intros x.
  - split; [intros _; now exists x | intros _; now destruct x].
  - destruct x as [|d x]; simpl.
    + split; [discriminate | intros [b H]; discriminate].
    + destruct (ascii_dec c d) as [-> | Hne].
      * rewrite IH. split; intros [b H]; exists b.
        -- now rewrite H.
        -- now injection H.
      * split; [discriminate |]. intros [b H]. injection H as H _.
        congruence.
Qed.

Lemma str_in_substring (word x : string) :
  str_in word x = true <-> substring_of word x.
Proof.
  unfold substring_of. induction x as [|c x IH].
  - change (str_in word "") with (String.prefix word "" || false).
    rewrite orb_false_r, prefix_true. split.
    + intros [b H]. exists "", b. exact H.
    + intros (a & b & H). destruct a; simpl in H; [now exists b |].
      discriminate.
  - change (str_in word (String c x))
      with (String.prefix word (String c x) || str_in word x).
    rewrite orb_true_iff, prefix_true, IH. split.
    + intros [[b H] | (a & b & H)].
      * exists "", b. exact H.
      * exists (String c a), b. simpl. now rewrite H.
    + intros (a & b & H). destruct a as [|d a]; simpl in H.
      * left. now exists b.
      * right. injection H as _ H. now exists a, b.
Qed.

Lemma is_recruiting_true (r : row) :
  is_recruiting r = true <->
  exists x, cell "Position" r = VStr x /\ recruiting_position x.
Proof.
  unfold is_recruiting, recruiting_position.
  destruct (cell "Position" r) as [z | q | x |].
  - split; [discriminate | intros (x & H & _); discriminate].
  - split; [discriminate | intros (x & H & _); discriminate].
  - rewrite existsb_exists. split.
    + intros (word & Hin & Hw). exists x. split; [reflexivity |].
      exists word. split; [exact Hin | now apply str_in_substring].
    + intros (x' & [= <-] & word & Hin & Hw).
      exists word. split; [exact Hin | now apply str_in_substring].
  - split; [discriminate | intros (x & H & _); discriminate].
Qed.

Lemma cell_set_cell (c : string) (v : value) (r : row) :
  cell c (set_cell c v r) = v.
Proof.
  induction r as [|[c' v'] r IH]; simpl.
  - now rewrite String.eqb_refl.
  - destruct (String.eqb c c') eqn:E; simpl.
    + now rewrite String.eqb_refl.
    + now rewrite E.
Qed.

Lemma set_cell_same (c x : string) (r : row) :
  cell c r = VStr x -> set_cell c (VStr x) r = r.
Proof.
  induction r as [|[c' v'] r IH]; simpl; [discriminate |].
  destruct (String.eqb_spec c c') as [-> | Hne].
  - now intros ->.
  - intros H. now rewrite IH.
Qed.

Lemma not_recruiting_not_Recruiter (x : string) :
  existsb (fun word => str_in word x) words = false ->
  String.eqb x "Recruiter" = false.
Proof.
  intros H. destruct (String.eqb_spec x "Recruiter") as [-> | _];
    [| reflexivity].
  vm_compute in H. discriminate.
Qed.

Lemma relabel_rows_text (t : table row) :
  Forall (fun ir => text_or_missing (cell "Position" (snd ir))) t ->
  exists t',
    relabel_rows "Position" t = Return t' /\
    filter (fun ir => value_is_str (cell "Position" (snd ir)) "Recruiter") t'
    = map (fun ir => (fst ir, set_cell "Position" (VStr "Recruiter") (snd ir)))
          (filter (fun ir => is_recruiting (snd ir)) t).
Proof.
  induction 1 as [|[i r] t Hr _ (t' & Et & Ef)].
  - exists []. auto.
  - cbn [snd] in Hr. cbn [relabel_rows filter snd].
    destruct Hr as [Hr | [x Hr]].
    + assert (Hrec : is_recruiting r = false)
        by (unfold is_recruiting; now rewrite Hr).
      rewrite Hr, Hrec. cbn [relabel bind]. rewrite Et. cbn [bind].
      eexists. split; [reflexivity |].
      cbn [filter snd]. rewrite cell_set_cell. cbn [value_is_str].
      exact Ef.
    + assert (Hrec : is_recruiting r
                     = existsb (fun word => str_in word x) words)
        by (unfold is_recruiting; now rewrite Hr).
      rewrite Hr, Hrec. cbn [relabel bind]. rewrite Et. cbn [bind].
      eexists. split; [reflexivity |].
      cbn [filter snd]. rewrite cell_set_cell. cbn [value_is_str].
      destruct (existsb (fun word => str_in word x) words) eqn:E.
      * rewrite String.eqb_refl. cbn [map fst snd]. now rewrite Ef.
      * rewrite (not_recruiting_not_Recruiter x E). exact Ef.
Qed.

(** X17.  When the reader returns a table that has a 'Position' column
    whose cells hold text or nothing, [import_recruiters_contacts] returns
    the rows whose position mentions 'Recruiter', 'Talent', 'Sourcer' or
    'Recruiting' anywhere in its text, in their order and under their
    labels, with the position rewritten to 'Recruiter' and every other
    cell as it was; rows with no position are left out. *)
Theorem import_recruiters_contacts_result
    (read_safely : string -> outcome DataFrame) (path : string)
    (contacts_df : DataFrame) :
  read_safely "./connections.csv" = Return contacts_df ->
  has_column contacts_df "Position" = true ->
  Forall (fun ir => text_or_missing (cell "Position" (snd ir)))
         (rows contacts_df) ->
  import_recruiters_contacts read_safely path
    = Return
        {| columns := columns contacts_df;
           rows := map (fun ir => (fst ir,
                                   set_cell "Position" (VStr "Recruiter")
                                            (snd ir)))
                       (filter (fun ir => is_recruiting (snd ir))
                               (rows contacts_df)) |} /\
  (forall r, is_recruiting r = true <->
             exists x, cell "Position" r = VStr x /\ recruiting_position x).
Proof.
  intros Hread Hcol Htext. split; [| apply is_recruiting_true].
  unfold import_recruiters_contacts. rewrite Hread. cbn [bind].
  rewrite (getitem_present _ _ Hcol). cbn [bind].
  destruct (relabel_rows_text _ Htext) as (t' & Et & Ef).
  rewrite Et. cbn [bind].
  rewrite where_eq_present by exact Hcol. cbn [bind columns rows].
  now rewrite Ef.
Qed.

Lemma import_recruiters_contacts_result_witness :
  read_from [("./connections.csv", sample_connections)] "./connections.csv"
    = Return sample_connections /\
  has_column sample_connections "Position" = true /\
  Forall (fun ir => text_or_missing (cell "Position" (snd ir)))
         (rows sample_connections) /\
  import_recruiters_contacts
    (read_from [("./connections.csv", sample_connections)]) "x.csv"
    = Return
        {| columns := columns sample_connections;
           rows := map (fun ir => (fst ir,
                                   set_cell "Position" (VStr "Recruiter")
                                            (snd ir)))
                       (filter (fun ir => is_recruiting (snd ir))
                               (rows sample_connections)) |} /\
  (forall r, is_recruiting r = true <->
             exists x, cell "Position" r = VStr x /\ recruiting_position x).
Proof.
  assert (Ht : Forall (fun ir => text_or_missing (cell "Position" (snd ir)))
                      (rows sample_connections)).
  { unfold text_or_missing. simpl.
    repeat (apply Forall_cons || apply Forall_nil); simpl;
      [right; eauto | right; eauto | left; reflexivity | right; eauto]. }
  split; [reflexivity |]. split; [reflexivity |]. split; [exact Ht |].
  apply (import_recruiters_contacts_result
           (read_from [("./connections.csv", sample_connections)]) "x.csv"
           sample_connections); [reflexivity | reflexivity | exact Ht].
Defined.

Lemma relabel_rows_number (t : table row) :
  Exists (fun ir => ~ text_or_missing (cell "Position" (snd ir))) t ->
  relabel_rows "Position" t = Raise (TypeError "argument is not iterable").
Proof.
  induction t as [|[i r] t IH]; intros H; [inversion H |].
  cbn [relabel_rows].
  destruct (cell "Position" r) as [z | q | x |] eqn:E; cbn [relabel bind];
    try reflexivity.
  - rewrite IH; [reflexivity |].
    inversion H as [? ? Hhd | ? ? Htl]; subst; [| exact Htl].
    exfalso. apply Hhd. cbn [snd]. rewrite E. right. now exists x.
  - rewrite IH; [reflexivity |].
    inversion H as [? ? Hhd | ? ? Htl]; subst; [| exact Htl].
    exfalso. apply Hhd. cbn [snd]. rewrite E. now left.
Qed.

(** X18.  The ways [import_recruiters_contacts] fails, none of them
    caught: an error of the reader is raised as it is; a table without a
    'Position' column raises its [KeyError]; a position that is a number,
    neither text nor missing, raises a [TypeError]. *)
Theorem import_recruiters_contacts_failures
    (read_safely : string -> outcome DataFrame) (path : string) :
  (forall e, read_safely "./connections.csv" = Raise e ->
     import_recruiters_contacts read_safely path = Raise e) /\
  (forall contacts_df,
     read_safely "./connections.csv" = Return contacts_df ->
     has_column contacts_df "Position" = false ->
     import_recruiters_contacts read_safely path
       = Raise (KeyError "Position")) /\
  (forall contacts_df,
     read_safely "./connections.csv" = Return contacts_df ->
     has_column contacts_df "Position" = true ->
     Exists (fun ir => ~ text_or_missing (cell "Position" (snd ir)))
            (rows contacts_df) ->
     import_recruiters_contacts read_safely path
       = Raise (TypeError "argument is not iterable")).
Proof.
  unfold import_recruiters_contacts. repeat split.
  - intros e ->. reflexivity.
  - intros df -> Hcol. cbn [bind].
    now rewrite (getitem_missing _ _ Hcol).
  - intros df -> Hcol Hnum. cbn [bind].
    rewrite (getitem_present _ _ Hcol). cbn [bind].
    now rewrite (relabel_rows_number _ Hnum).
Qed.

Example import_recruiters_contacts_numeric_position :
  import_recruiters_contacts
    (read_from [("./connections.csv", numeric_positions)]) "x.csv"
  = Raise (TypeError "argument is not iterable").
Proof. reflexivity. Qed.

Lemma relabel_rows_fixed (t : table row) :
  Forall (fun ir => cell "Position" (snd ir) = VStr "Recruiter") t ->
  relabel_rows "Position" t = Return t.
Proof.
  induction 1 as [|[i r] t Hr _ IH]; [reflexivity |].
  cbn [snd] in Hr. cbn [relabel_rows]. rewrite Hr, IH.
  cbn [relabel bind].
  replace (existsb (fun word => str_in word "Recruiter") words) with true
    by reflexivity.
  now rewrite (set_cell_same _ _ _ Hr).
Qed.

Lemma filter_all {A : Type} (f : A -> bool) (l : list A) :
  Forall (fun a => f a = true) l -> filter f l = l.
Proof.
  induction 1 as [|a l Ha _ IH]; simpl; [reflexivity |].
  now rewrite Ha, IH.
Qed.

(** X19.  The table [import_recruiters_contacts] returns is one it leaves
    alone: run again on its own result, it returns that same table. *)
Theorem import_recruiters_contacts_twice
    (read_safely : string -> outcome DataFrame) (path path' : string)
    (recruiters_df : DataFrame) :
  import_recruiters_contacts read_safely path = Return recruiters_df ->
  import_recruiters_contacts (fun _ => Return recruiters_df) path'
    = Return recruiters_df.
Proof.
  unfold import_recruiters_contacts. intros H.
  destruct (read_safely "./connections.csv") as [df | e]; [| discriminate].
  cbn [bind] in H.
  destruct (has_column df "Position") eqn:Hcol.
  2: { rewrite (getitem_missing _ _ Hcol) in H. discriminate. }
  rewrite (getitem_present _ _ Hcol) in H. cbn [bind] in H.
  destruct (relabel_rows "Position" (rows df)) as [t' | e]; [| discriminate].
  cbn [bind] in H.
  rewrite where_eq_present in H by exact Hcol. cbn [bind] in H.
  injection H as <-. cbn [bind columns rows].
  assert (Hcol' : has_column
                    {| columns := columns df;
                       rows := filter
                                 (fun ir => value_is_str
                                              (cell "Position" (snd ir))
                                              "Recruiter") t' |}
                    "Position" = true) by exact Hcol.
  assert (Hall : Forall (fun ir => cell "Position" (snd ir) = VStr "Recruiter")
                   (filter (fun ir => value_is_str (cell "Position" (snd ir))
                                                   "Recruiter") t')).
  { apply Forall_forall. intros ir Hin. apply filter_In in Hin as [_ Hin].
    now apply value_is_str_true. }
  rewrite (getitem_present _ _ Hcol'). cbn [bind rows columns].
  rewrite (relabel_rows_fixed _ Hall). cbn [bind].
  rewrite where_eq_present by exact Hcol. cbn [bind columns rows].
  rewrite filter_all; [reflexivity |].
  eapply Forall_impl; [| exact Hall].
  intros ir Hir. now apply value_is_str_true.
Qed.

Lemma import_recruiters_contacts_twice_witness :
  import_recruiters_contacts
    (read_from [("./connections.csv", sample_connections)]) "x.csv"
  = Return
      {| columns := ["Name"; "Position"];
         rows := [(0, [("Name", VStr "a"); ("Position", VStr "Recruiter")]);
                  (3, [("Name", VStr "d"); ("Position", VStr "Recruiter")])] |}
  /\
  import_recruiters_contacts
    (fun _ =>
       Return
         {| columns := ["Name"; "Position"];
            rows := [(0, [("Name", VStr "a"); ("Position", VStr "Recruiter")]);
                     (3, [("Name", VStr "d"); ("Position", VStr "Recruiter")])]
         |}) "y.csv"
  = Return
      {| columns := ["Name"; "Position"];
         rows := [(0, [("Name", VStr "a"); ("Position", VStr "Recruiter")]);
                  (3, [("Name", VStr "d"); ("Position", VStr "Recruiter")])] |}.
Proof.
  split; [reflexivity |].
  apply (import_recruiters_contacts_twice
           (read_from [("./connections.csv", sample_connections)])
           "x.csv" "y.csv").
  reflexivity.
Defined.

(** ** Charts: what is drawn *)

Lemma plot_data_trace (x : DataFrame) (y : list value)
    (x_column y_column xlabel ylabel title : string)
    (fig_size : Z * Z) (fig_color : string) :
  has_column x x_column = true ->
  has_column x y_column = true ->
  plot_data tracing_plt x y x_column y_column xlabel ylabel title fig_size
    fig_color
  = Return (bar_chart (map (fun ir => cell x_column (snd ir)) (rows x))
              (map (fun ir => cell y_column (snd ir)) (rows x))
              y xlabel ylabel title fig_size fig_color).
Proof.
  intros Hx Hy. unfold plot_data.
  rewrite !(getitem_present _ _ Hx), (getitem_present _ _ Hy).
  unfold tracing_plt, bar_chart, values. cbn.
  rewrite !map_map. reflexivity.
Qed.

(** X20.  What [get_plots] draws when the sort of the by-name table goes
    through, read off a backend that keeps its calls.  The first chart has
    one bar per month that occurs among the filtered records, the second
    plots the number of events of each such month, the third the number
    of events of each year.  The bars stand at the month or year numbers
    that occur, in ascending order, and the tick labels handed over with
    them are always the twelve month names from January on, or the three
    years 2016 to 2018, however many months or years occur. *)
Theorem get_plots_charts
    (sort_by_minutes : table ByName.agg -> outcome (table ByName.agg))
    (cal_df : table CalRow) (sorted : table ByName.agg) :
  sort_by_minutes (cal_min (counted cal_df)) = Return sorted ->
  let t := counted cal_df in
  exists heights : list Q,
    List.length heights = List.length (values (cal_month_time t)) /\
    get_plots tracing_plt sort_by_minutes cal_df
    = Return
        [bar_chart
           (map (fun a => VInt (MonthHours.month a))
                (values (cal_month_time t)))
           (map VFloat heights)
           months "Month" "Hours Spent " "Total Time Spent Per Month"
           (15, 5) "#db3236";
         bar_chart
           (map (fun a => VInt (MonthCount.month a)) (values (cal_month t)))
           (map (fun a => VInt (MonthCount.count a)) (values (cal_month t)))
           months "Month" "Number of Events " "Total Events Per Month"
           (15, 5) "#db3236";
         bar_chart
           (map (fun a => VInt (YearCount.year a)) (values (cal_year_time t)))
           (map (fun a => VInt (YearCount.count a))
                (values (cal_year_time t)))
           [VInt 2016; VInt 2017; VInt 2018]
           "Year" "Number of Events" "Number of Events" (10, 5) "#db3236"]
    /\
    List.length months = 12%nat.
Proof.
  intros Hs t.
  exists (map MonthHours.hours (values (cal_month_time t))).
  split; [| split; [| reflexivity]].
  - now rewrite length_map.
  - unfold get_plots. fold (filter_step cal_df). fold (counted cal_df).
    rewrite Hs. cbn [bind]. fold t.
    rewrite !plot_data_trace by reflexivity. cbn [bind].
    unfold frame_month_hours, frame_month_count, frame_year_count, values.
    cbn [rows]. rewrite !map_map. reflexivity.
Qed.

Lemma get_plots_charts_witness :
  sort_by_minutes_sample
    (cal_min (counted [(0, standup 2 3 2017 9); (1, standup 4 7 2017 9)]))
  = Return [(0, {| ByName.event_name := "Standup"; ByName.count := 2;
                   ByName.minutes := (Qmake 1800 60
                                      + (Qmake 1800 60 + 0))%Q |})] /\
  let t := counted [(0, standup 2 3 2017 9); (1, standup 4 7 2017 9)] in
  exists heights : list Q,
    List.length heights = List.length (values (cal_month_time t)) /\
    get_plots tracing_plt sort_by_minutes_sample
      [(0, standup 2 3 2017 9); (1, standup 4 7 2017 9)]
    = Return
        [bar_chart
           (map (fun a => VInt (MonthHours.month a))
                (values (cal_month_time t)))
           (map VFloat heights)
           months "Month" "Hours Spent " "Total Time Spent Per Month"
           (15, 5) "#db3236";
         bar_chart
           (map (fun a => VInt (MonthCount.month a)) (values (cal_month t)))
           (map (fun a => VInt (MonthCount.count a)) (values (cal_month t)))
           months "Month" "Number of Events " "Total Events Per Month"
           (15, 5) "#db3236";
         bar_chart
           (map (fun a => VInt (YearCount.year a)) (values (cal_year_time t)))
           (map (fun a => VInt (YearCount.count a))
                (values (cal_year_time t)))
           [VInt 2016; VInt 2017; VInt 2018]
           "Year" "Number of Events" "Number of Events" (10, 5) "#db3236"]
    /\
    List.length months = 12%nat.
Proof.
  split; [reflexivity |].
  apply (get_plots_charts sort_by_minutes_sample
           [(0, standup 2 3 2017 9); (1, standup 4 7 2017 9)]
           [(0, {| ByName.event_name := "Standup"; ByName.count := 2;
                   ByName.minutes := (Qmake 1800 60
                                      + (Qmake 1800 60 + 0))%Q |})]).
  reflexivity.
Defined.

(** In a calendar with events in March and July only, the two bars stand
    at 3 and 7 and the labels on offer start at January. *)
Example get_plots_two_months :
  exists heights,
    get_plots tracing_plt sort_by_minutes_sample
      [(0, standup 2 3 2017 9); (1, standup 4 7 2017 9);
       (2, standup 5 7 2017 9)]
    = Return
        [bar_chart [VInt 3; VInt 7] heights
           months "Month" "Hours Spent " "Total Time Spent Per Month"
           (15, 5) "#db3236";
         bar_chart [VInt 3; VInt 7] [VInt 1; VInt 2]
           months "Month" "Number of Events " "Total Events Per Month"
           (15, 5) "#db3236";
         bar_chart [VInt 2017] [VInt 3] [VInt 2016; VInt 2017; VInt 2018]
           "Year" "Number of Events" "Number of Events" (10, 5) "#db3236"].
Proof. eexists. reflexivity. Qed.

(** X21.  [plot] always returns: the figure exactly when every call of
    its [try] block went through, and the string "Can't generate plot"
    exactly when one of them raised, whichever error that was. *)
Theorem plot_returns_figure_or_message {Fig : Type} (plt : Pyplot Fig)
    (x y z : list value) (xlabel ylabel title : string) (fig_size : Z * Z)
    (fig_color flag : string) :
  (forall fig,
     plot plt x y z xlabel ylabel title fig_size fig_color flag
       = Return (Chart fig)
     <-> plot_try plt x y z xlabel ylabel title fig_size fig_color flag
         = Return fig) /\
  (plot plt x y z xlabel ylabel title fig_size fig_color flag
     = Return (Message "Can't generate plot")
   <-> raises (plot_try plt x y z xlabel ylabel title fig_size fig_color
                 flag)) /\
  ~ raises (plot plt x y z xlabel ylabel title fig_size fig_color flag).
Proof.
  unfold plot, raises.
  destruct (plot_try plt x y z xlabel ylabel title fig_size fig_color flag)
    as [fig0 | e].
  - repeat split.
    + intros [= ->]. reflexivity.
    + intros [= ->]. reflexivity.
    + discriminate.
    + intros [e H]. discriminate.
    + intros [e H]. discriminate.
  - repeat split.
    + discriminate.
    + discriminate.
    + intros _. now exists e.
    + intros [e' H]. discriminate.
Qed.

(** ** Invites per day *)

(** Two invites of one week, a Monday and a Tuesday, give two rows, each
    dated seven days earlier; the invite without a date is in neither. *)
Example clean_df_sample :
  clean_df sample_to_date sample_dated_invites "Sent At"
  = Return [(0, (736625, [("From", 2); ("Message", 1)]));
            (1, (736626, [("From", 1); ("Message", 0)]))].
Proof. reflexivity. Qed.

Section CleanDfFacts.

Variable to_date : value -> outcome (option Z).
Variable date_column : string.

Lemma with_dates_keys (t : table row) :
  forall t',
    with_dates to_date date_column t = Return t' ->
    forall d r,
      In (d, r) (values (with_key (minus_week t'))) <->
      exists i, In (i, r) t /\
                to_date (cell date_column r) = Return (Some (d + 7)).
Proof.
  induction t as [|[i r] t IH]; intros t' H d r0.
  - injection H as <-. simpl. split; [intros [] | intros (j & [] & _)].
  - cbn [with_dates] in H.
    destruct (to_date (cell date_column r)) as [d0 | e] eqn:Ed;
      [| discriminate].
    cbn [bind] in H.
    destruct (with_dates to_date date_column t) as [t0 | e] eqn:Et;
      [| discriminate].
    cbn [bind] in H. injection H as <-.
    specialize (IH t0 eq_refl d r0).
    unfold values, with_key, minus_week in *. cbn [map flat_map fst snd].
    rewrite map_app, in_app_iff, IH. clear IH.
    destruct d0 as [d0 |]; cbn [option_map map fst snd]; split.
    + intros [[[= <- <-] | []] | (j & Hin & Hd)].
      * exists i. split; [now left |]. rewrite Ed. do 2 f_equal. lia.
      * exists j. split; [now right | exact Hd].
    + intros (j & [[= <- <-] | Hin] & Hd).
      * left. left. rewrite Ed in Hd. injection Hd as ->.
        f_equal. lia.
      * right. now exists j.
    + intros [[] | (j & Hin & Hd)]. exists j. split; [now right | exact Hd].
    + intros (j & [[= <- <-] | Hin] & Hd).
      * rewrite Ed in Hd. discriminate.
      * right. now exists j.
Qed.

Lemma with_dates_counts (c : string) (d : Z) (t : table row) :
  forall t',
    with_dates to_date date_column t = Return t' ->
    List.length
      (filter (fun dr : Z * row => notna (cell c (snd dr)))
         (filter (fun dr : Z * row =>
                    if Z.eq_dec (fst dr) d then true else false)
                 (values (with_key (minus_week t')))))
    = List.length (filter (counts_for to_date date_column d c) t).
Proof.
  induction t as [|[i r] t IH]; intros t' H.
  - injection H as <-. reflexivity.
  - cbn [with_dates] in H.
    destruct (to_date (cell date_column r)) as [d0 | e] eqn:Ed;
      [| discriminate].
    cbn [bind] in H.
    destruct (with_dates to_date date_column t) as [t0 | e] eqn:Et;
      [| discriminate].
    cbn [bind] in H. injection H as <-.
    specialize (IH t0 eq_refl).
    cbn [filter]. unfold counts_for at 1. cbn [snd]. rewrite Ed.
    unfold values, with_key, minus_week in *. cbn [map flat_map fst snd].
    rewrite map_app, !filter_app, length_app, IH. clear IH.
    destruct d0 as [d0 |]; cbn [option_map map fst snd filter].
    + destruct (Z.eq_dec (d0 - 7) d) as [Hd | Hd].
      * apply Z.eqb_eq in Hd. rewrite Hd. cbn [andb filter snd].
        destruct (notna (cell c r)); reflexivity.
      * apply Z.eqb_neq in Hd. rewrite Hd. reflexivity.
    + reflexivity.
Qed.

End CleanDfFacts.

(** X22.  When [clean_df] returns, its table has one row per day on which
    some row of the input has its date, moved back by seven days, and for
    no other day; the days come strictly increasing; and each row gives,
    for every column other than the date column, the number of input rows
    of that day whose cell in the column is not missing.  The grouping is
    by day: no two days of a week are merged. *)
Theorem clean_df_counts_by_day (to_date : value -> outcome (option Z))
    (df : DataFrame) (date_column : string)
    (df_by_week : table (Z * list (string * Z))) :
  clean_df to_date df date_column = Return df_by_week ->
  Sorted Z.lt (map fst (values df_by_week)) /\
  (forall d, In d (map fst (values df_by_week)) <->
             exists ir, In ir (rows df) /\
                        to_date (cell date_column (snd ir))
                          = Return (Some (d + 7))) /\
  Forall (fun a =>
            snd a
            = map (fun c =>
                     (c, Z.of_nat
                           (List.length
                              (filter (counts_for to_date date_column
                                         (fst a) c)
                                      (rows df)))))
                  (other_columns df date_column))
         (values df_by_week).
Proof.
  unfold clean_df. intros H.
  destruct (getitem df date_column) as [col | e]; [| discriminate].
  cbn [bind] in H.
  destruct (with_dates to_date date_column (rows df)) as [t' | e] eqn:Et;
    [| discriminate].
  cbn [bind] in H. injection H as <-.
  rewrite values_range_index, map_map. cbn [fst].
  rewrite (groupby_keys (@fst Z row) Z.eq_dec Z.leb).
  split; [| split].
  - apply Sorted_le_NoDup_lt; [| apply group_keys_NoDup].
    apply sort_keys_Sorted, Z_leb_total.
  - intros d. rewrite group_keys_In, in_map_iff. split.
    + intros ([d' r] & Hd & Hin). cbn [fst] in Hd. subst d'.
      apply (with_dates_keys _ _ _ _ Et) in Hin as (i & Hin & Hd).
      exists (i, r). auto.
    + intros ([i r] & Hin & Hd). exists (d, r). split; [reflexivity |].
      apply (with_dates_keys _ _ _ _ Et). now exists i.
  - apply Forall_map, Forall_forall. intros [k g] Hin. cbn [fst snd].
    unfold groupby in Hin. apply in_map_iff in Hin as (k' & [= <- <-] & _).
    apply map_ext. intros c. f_equal. unfold count_column, group.
    f_equal. apply (with_dates_counts _ _ _ _ _ _ Et).
Qed.

Lemma clean_df_counts_by_day_witness :
  clean_df sample_to_date sample_dated_invites "Sent At"
    = Return [(0, (736625, [("From", 2); ("Message", 1)]));
              (1, (736626, [("From", 1); ("Message", 0)]))] /\
  Sorted Z.lt
    (map fst (values [(0, (736625, [("From", 2); ("Message", 1)]));
                      (1, (736626, [("From", 1); ("Message", 0)]))])) /\
  (forall d,
     In d (map fst (values [(0, (736625, [("From", 2); ("Message", 1)]));
                            (1, (736626, [("From", 1); ("Message", 0)]))]))
     <-> exists ir, In ir (rows sample_dated_invites) /\
                    sample_to_date (cell "Sent At" (snd ir))
                      = Return (Some (d + 7))) /\
  Forall (fun a =>
            snd a
            = map (fun c =>
                     (c, Z.of_nat
                           (List.length
                              (filter (counts_for sample_to_date "Sent At"
                                         (fst a) c)
                                      (rows sample_dated_invites)))))
                  (other_columns sample_dated_invites "Sent At"))
         (values [(0, (736625, [("From", 2); ("Message", 1)]));
                  (1, (736626, [("From", 1); ("Message", 0)]))]).
Proof.
  split; [reflexivity |].
  apply (clean_df_counts_by_day sample_to_date sample_dated_invites "Sent At").
  reflexivity.
Defined.

Lemma with_dates_first_failure (to_date : value -> outcome (option Z))
    (date_column : string) (before : table row) :
  forall (ir : Z * row) (after : table row) (e : exn),
    Forall (fun ir' => exists d,
              to_date (cell date_column (snd ir')) = Return d) before ->
    to_date (cell date_column (snd ir)) = Raise e ->
    with_dates to_date date_column (before ++ ir :: after)%list = Raise e.
Proof.
  induction before as [|[i r] before IH]; intros [j r'] after e Hb He.
  - cbn [app with_dates]. cbn [snd] in He. now rewrite He.
  - inversion Hb as [|? ? [d Hd] Hb']; subst. cbn [snd] in Hd.
    cbn [app with_dates]. rewrite Hd. cbn [bind].
    now rewrite (IH (j, r') after e Hb' He).
Qed.

(** X23.  The ways [clean_df] fails, none of them caught: a table without
    the date column raises its [KeyError]; a cell of the date column that
    is no date raises the error of the date parser, that of the first such
    cell. *)
Theorem clean_df_failures (to_date : value -> outcome (option Z))
    (df : DataFrame) (date_column : string) :
  (has_column df date_column = false ->
   clean_df to_date df date_column = Raise (KeyError date_column)) /\
  (forall before ir after e,
     has_column df date_column = true ->
     rows df = (before ++ ir :: after)%list ->
     Forall (fun ir' => exists d,
               to_date (cell date_column (snd ir')) = Return d) before ->
     to_date (cell date_column (snd ir)) = Raise e ->
     clean_df to_date df date_column = Raise e).
Proof.
  unfold clean_df. split.
  - intros Hcol. now rewrite (getitem_missing _ _ Hcol).
  - intros before ir after e Hcol Hrows Hb He.
    rewrite (getitem_present _ _ Hcol). cbn [bind]. rewrite Hrows.
    now rewrite (with_dates_first_failure _ _ _ _ _ _ Hb He).
Qed.
